(** * Enrollment intake pipeline of [backend/server.js]

    A shallow embedding of the enrollment service: the sanitizer
    [sanitizeInput], the validator [validateEnrollmentData], the
    [POST /send] handler with its duplicate check, persistence and
    best-effort notification, the [GET /api/students/:id] handler, and the
    part of the Express routing table that decides how [POST /api/route]
    is served.

    - JavaScript strings are sequences of UTF-16 code units; they are
      modelled as [list N], one number per code unit, so that [trim], the
      regular expression classes and [length] mean what they mean in the
      source.
    - A request body maps property names to strings, as a submitted form
      does and as the spec describes the input of the validator. The
      sanitizer itself is modelled on every JSON value.
    - Dates are time values in milliseconds ([Z]); the invalid date is
      [None].
    - The handler is a function from the world (store and console) to a
      response and a new world. What it reads from outside (clock, identity
      of the new document, concurrent writes, outcome of the mail
      transport, rate limits) is an argument, [Env].
    - Library functions are an interface, [Platform]. *)

From Stdlib Require Import ZArith NArith String Ascii Lia.
From Stdlib Require Import Floats.SpecFloat.
From stdpp Require Import gmap list.

Set Warnings "-register-all".

Local Open Scope N_scope.

(** ** JavaScript strings *)

Abbreviation jsstring := (list N).

(** [u] turns a literal of the development into a JavaScript string. *)
Fixpoint u (s : string) : jsstring :=
  match s with
  | EmptyString => []
  | String a r => N_of_ascii a :: u r
  end.

Arguments u : simpl never.

(** WhiteSpace and LineTerminator code points of ECMAScript: the characters
    removed by [String.prototype.trim] and matched by [\s]. *)
Definition is_ws (c : N) : bool :=
  (c =? 9) || (c =? 10) || (c =? 11) || (c =? 12) || (c =? 13) || (c =? 32)
  || (c =? 160) || (c =? 5760) || ((8192 <=? c) && (c <=? 8202))
  || (c =? 8232) || (c =? 8233) || (c =? 8239) || (c =? 8287)
  || (c =? 12288) || (c =? 65279).

Fixpoint trimStart (s : jsstring) : jsstring :=
  match s with
  | [] => []
  | c :: r => if is_ws c then trimStart r else s
  end.

Definition trimEnd (s : jsstring) : jsstring := rev (trimStart (rev s)).

(** [s.trim()] *)
Definition trim (s : jsstring) : jsstring := trimEnd (trimStart s).

(** The character class of the sanitizer's regular expression: less-than
    (60), greater-than (62), double quote (34) and apostrophe (39). *)
Definition is_markup (c : N) : bool :=
  (c =? 60) || (c =? 62) || (c =? 34) || (c =? 39).

(** [s.replace(re, '')] for the global regular expression [re] over the
    class [is_markup]: every such character is removed. *)
Definition strip_markup (s : jsstring) : jsstring :=
  List.filter (fun c => negb (is_markup c)) s.

(** [s.replace(/\s/g, '')] *)
Definition strip_ws (s : jsstring) : jsstring :=
  List.filter (fun c => negb (is_ws c)) s.

(** A string with no white space at either end. *)
Definition trimmed (s : jsstring) : Prop := trim s = s.

Definition has_markup (s : jsstring) : bool := existsb is_markup s.

(** ** JSON values, as a parsed request body can hold them *)

Inductive value : Type :=
| VNull
| VBool (b : bool)
| VNum (x : spec_float)
| VStr (s : jsstring)
| VArr (items : list value)
| VObj (props : list (jsstring * value)).


(** [sanitizeInput]: a string is trimmed and then loses every character of
    the class [is_markup]; any other input is returned as it is. *)
Definition sanitizeInput (input : value) : value :=
  match input with
  | VStr s => VStr (strip_markup (trim s))
  | _ => input
  end.

(** [sanitizeInput] on a property that holds a string. *)
Definition sanitize_str (s : jsstring) : jsstring :=
  match sanitizeInput (VStr s) with
  | VStr t => t
  | _ => s
  end.

(** ** Library functions the source calls

    [validator.isEmail], the date parser behind [new Date(string)], the case
    conversions of [String.prototype], mongoose's ObjectId cast and the text
    of its cast error are not part of the repository. The model takes them
    as an interface; nothing below depends on how they are implemented. *)

Class Platform : Type := {
  (** [validator.isEmail(s)] on a string *)
  isEmail : jsstring -> bool;
  (** time value of [new Date(s)] in milliseconds since the epoch;
      [None] is the invalid date, whose time value is NaN *)
  Date_parse : jsstring -> option Z;
  (** [s.toLowerCase()] and [s.toUpperCase()] *)
  toLowerCase : jsstring -> jsstring;
  toUpperCase : jsstring -> jsstring;
  (** the ObjectId a string denotes, in the form [toString] prints it;
      [None] when [mongoose.Types.ObjectId.isValid] rejects the string *)
  ObjectId_cast : jsstring -> option jsstring;
  (** message of the cast error mongoose records for an invalid date *)
  castDateMessage : jsstring
}.

(** ** The validator *)

(** [ToBoolean] on a property that holds a string or is absent. *)
Definition truthy (o : option jsstring) : bool :=
  match o with
  | Some (_ :: _) => true
  | _ => false
  end.

Definition requiredFields : list jsstring :=
  [ u "firstName"; u "lastName"; u "email"; u "phone"; u "idnumber";
    u "dateOfBirth"; u "course"; u "address"; u "city"; u "zipCode";
    u "emergencyContact"; u "emergencyPhone" ].

(** [!data[field] || !data[field].toString().trim()] *)
Definition is_missing (data : gmap jsstring jsstring) (field : jsstring) : bool :=
  negb (truthy (data !! field)) || negb (truthy (trim <$> data !! field)).

(** The template literal of the presence rule. *)
Definition required_message (field : jsstring) : jsstring :=
  field ++ u " is required".

(** The [forEach] over [requiredFields], pushing in order. *)
Definition required_errors (data : gmap jsstring jsstring) : list jsstring :=
  flat_map (fun field =>
              if is_missing data field then [required_message field] else [])
           requiredFields.

(** The class of the phone pattern: digit, white space, hyphen, plus and
    the two parentheses. *)
Definition is_phone_char (c : N) : bool :=
  ((48 <=? c) && (c <=? 57)) || is_ws c
  || (c =? 45) || (c =? 43) || (c =? 40) || (c =? 41).

(** The phone test: white space is removed, then the whole string must be
    ten or more characters of [is_phone_char]. *)
Definition phone_test (s : jsstring) : bool :=
  let t := strip_ws s in
  (10 <=? length t)%nat && forallb is_phone_char t.

(** [365.25 * 24 * 60 * 60 * 1000] *)
Definition msPerYear : Z := 31557600000.

(** [Math.floor((now - birth) / msPerYear)]; [None] stands for NaN.
    Time values are integers within 8.64e15 of the epoch, so the difference
    of a clock reading and a birth date is an integer below 2^53 and the
    subtraction is exact. An exact quotient that is not an integer lies at
    least 1/31557600000 from the next one, more than half the spacing of
    doubles at that magnitude (2^-35 below 2^19), so rounding never reaches
    an integer from below and the floor of the rounded quotient is the
    flooring integer division. *)
Definition age_at (now : Z) (birth : option Z) : option Z :=
  (fun b => ((now - b) / msPerYear)%Z) <$> birth.

(** [age < 16 || age > 100], false on NaN. *)
Definition age_out_of_bounds (age : option Z) : bool :=
  match age with
  | Some a => (a <? 16)%Z || (100 <? a)%Z
  | None => false
  end.

Definition email_message : jsstring := u "Please provide a valid email address".
Definition phone_message : jsstring := u "Please provide a valid phone number".
Definition emergency_phone_message : jsstring :=
  u "Please provide a valid emergency phone number".
Definition age_message : jsstring := u "Age must be between 16 and 100 years".

(** One [if (cond) errors.push(msg)] of the validator. *)
Definition push_if (cond : bool) (msg : jsstring) : list jsstring :=
  if cond then [msg] else [].

Definition email_errors `{Platform} (data : gmap jsstring jsstring) : list jsstring :=
  push_if (truthy (data !! u "email")
           && negb (default false (isEmail <$> data !! u "email")))
          email_message.

Definition phone_errors (data : gmap jsstring jsstring) : list jsstring :=
  push_if (truthy (data !! u "phone")
           && negb (default false (phone_test <$> data !! u "phone")))
          phone_message.

Definition emergency_phone_errors (data : gmap jsstring jsstring) : list jsstring :=
  push_if (truthy (data !! u "emergencyPhone")
           && negb (default false (phone_test <$> data !! u "emergencyPhone")))
          emergency_phone_message.

Definition age_errors `{Platform} (now : Z) (data : gmap jsstring jsstring)
  : list jsstring :=
  push_if (truthy (data !! u "dateOfBirth")
           && age_out_of_bounds (age_at now (data !! u "dateOfBirth" ≫= Date_parse)))
          age_message.

(** [validateEnrollmentData(data)], with the clock reading of its
    [new Date()] as [now]. The five blocks run one after the other and each
    pushes onto the same array. *)
Definition validateEnrollmentData `{Platform} (now : Z)
    (data : gmap jsstring jsstring) : list jsstring :=
  required_errors data
  ++ email_errors data
  ++ phone_errors data
  ++ emergency_phone_errors data
  ++ age_errors now data.

(** ** Enrollment records

    [Student.t] is a document of the [Student] collection as the schema
    stores it; [StudentData.t] is the object literal handed to
    [new Student(...)], where a property read from the sanitized body may
    be [undefined] and the date may be the invalid date. *)

Module Student.
Record t : Type := mk {
  _id : jsstring;
  firstName : jsstring;
  lastName : jsstring;
  email : jsstring;
  phone : jsstring;
  idnumber : jsstring;
  dateOfBirth : Z;
  course : jsstring;
  address : jsstring;
  city : jsstring;
  zipCode : jsstring;
  emergencyContact : jsstring;
  emergencyPhone : jsstring;
  enrollmentDate : Z;
  status : jsstring;
  ipAddress : option jsstring;
  userAgent : option jsstring;
  createdAt : Z;
  updatedAt : Z
}.
End Student.

Module StudentData.
Record t : Type := mk {
  firstName : option jsstring;
  lastName : option jsstring;
  email : option jsstring;
  phone : option jsstring;
  idnumber : option jsstring;
  dateOfBirth : option Z;
  course : option jsstring;
  address : option jsstring;
  city : option jsstring;
  zipCode : option jsstring;
  emergencyContact : option jsstring;
  emergencyPhone : option jsstring;
  ipAddress : option jsstring;
  userAgent : option jsstring
}.
End StudentData.

(** ** The schema

    The Record Store is MongoDB behind mongoose; neither is part of the
    source. The store below follows the contract the spec gives it
    ([create] returns the record with its identity or fails with a
    constraint violation, [getById] returns the record or nothing), and
    applies to each path the options [studentSchema] declares in the source
    (trim, lowercase, required, lengths, enum, validators, unique). *)

(** Modelled from the spec: the setters of a string path of the schema,
    which mongoose runs and the source only declares: [trim: true],
    preceded by [lowercase: true] on the email path. An undefined value is
    left alone. *)
Definition set_string (v : option jsstring) : option jsstring := trim <$> v.

Definition set_email `{Platform} (v : option jsstring) : option jsstring :=
  (fun s => trim (toLowerCase s)) <$> v.

(** Modelled from the spec: the document [new Student(studentData)] holds
    after mongoose ran the setters of the schema. *)
Definition castStudent `{Platform} (d : StudentData.t) : StudentData.t :=
  {| StudentData.firstName := set_string (StudentData.firstName d);
     StudentData.lastName := set_string (StudentData.lastName d);
     StudentData.email := set_email (StudentData.email d);
     StudentData.phone := set_string (StudentData.phone d);
     StudentData.idnumber := set_string (StudentData.idnumber d);
     StudentData.dateOfBirth := StudentData.dateOfBirth d;
     StudentData.course := set_string (StudentData.course d);
     StudentData.address := set_string (StudentData.address d);
     StudentData.city := set_string (StudentData.city d);
     StudentData.zipCode := set_string (StudentData.zipCode d);
     StudentData.emergencyContact := set_string (StudentData.emergencyContact d);
     StudentData.emergencyPhone := set_string (StudentData.emergencyPhone d);
     StudentData.ipAddress := StudentData.ipAddress d;
     StudentData.userAgent := StudentData.userAgent d |}.

(** A validator of a path: the test and the message of its failure. *)
Definition rule : Type := (jsstring -> bool) * jsstring.

Fixpoint first_failure (rules : list rule) (v : jsstring) : list jsstring :=
  match rules with
  | [] => []
  | (ok, msg) :: rest => if ok v then first_failure rest v else [msg]
  end.

(** Validation of one string path: [required] fails on an undefined or
    empty value; otherwise the validators run in the order of declaration
    and the first failure is the error of the path. *)
Definition check_path (required_msg : jsstring) (rules : list rule)
    (v : option jsstring) : list jsstring :=
  match v with
  | None | Some [] => [required_msg]
  | Some s => first_failure rules s
  end.

Definition minlength (n : nat) (msg : jsstring) : rule :=
  (fun v => (n <=? length v)%nat, msg).

Definition maxlength (n : nat) (msg : jsstring) : rule :=
  (fun v => (length v <=? n)%nat, msg).

Definition courses : list jsstring :=
  [ u "Computer Science"; u "Business Administration"; u "Engineering";
    u "Medicine"; u "Arts & Design"; u "Psychology"; u "Mathematics";
    u "Literature"; u "Information Technology"; u "Project Management" ].

Definition enum (values : list jsstring) (msg : jsstring) : rule :=
  (fun v => bool_decide (v ∈ values), msg).

(** The validator of the date path: [age >= 16 && age <= 100]. *)
Definition schema_age_ok (now : Z) (birth : Z) : bool :=
  let age := ((now - birth) / msPerYear)%Z in
  (16 <=? age)%Z && (age <=? 100)%Z.

(** Cast errors are recorded when the document is built, before any
    validator runs; a path with a cast error is not validated further. *)
Definition cast_errors `{Platform} (d : StudentData.t) : list jsstring :=
  match StudentData.dateOfBirth d with
  | None => [castDateMessage]
  | Some _ => []
  end.

Definition date_errors (now : Z) (d : StudentData.t) : list jsstring :=
  match StudentData.dateOfBirth d with
  | None => []
  | Some b => push_if (negb (schema_age_ok now b))
                      (u "Age must be between 16 and 100 years")
  end.

(** Modelled from the spec: the messages of the ValidationError mongoose
    raises in [save], for a document whose setters already ran. The rules
    and their messages are those of [studentSchema]; cast errors come
    first, then the paths in schema order. *)
Definition schema_errors `{Platform} (now : Z) (d : StudentData.t) : list jsstring :=
  cast_errors d
  ++ check_path (u "First name is required")
       [ minlength 2 (u "First name must be at least 2 characters");
         maxlength 50 (u "First name cannot exceed 50 characters") ]
       (StudentData.firstName d)
  ++ check_path (u "Last name is required")
       [ minlength 2 (u "Last name must be at least 2 characters");
         maxlength 50 (u "Last name cannot exceed 50 characters") ]
       (StudentData.lastName d)
  ++ check_path (u "Email is required")
       [ (isEmail, u "Please provide a valid email") ]
       (StudentData.email d)
  ++ check_path (u "Phone number is required")
       [ (phone_test, u "Please provide a valid phone number") ]
       (StudentData.phone d)
  ++ check_path (u "ID number is required")
       [ minlength 6 (u "ID number must be at least 6 characters") ]
       (StudentData.idnumber d)
  ++ date_errors now d
  ++ check_path (u "Course selection is required")
       [ enum courses (u "Please select a valid course") ]
       (StudentData.course d)
  ++ check_path (u "Address is required")
       [ minlength 10 (u "Please provide a complete address") ]
       (StudentData.address d)
  ++ check_path (u "City is required") [] (StudentData.city d)
  ++ check_path (u "ZIP code is required") [] (StudentData.zipCode d)
  ++ check_path (u "Emergency contact is required") []
       (StudentData.emergencyContact d)
  ++ check_path (u "Emergency phone is required")
       [ (phone_test, u "Please provide a valid emergency phone number") ]
       (StudentData.emergencyPhone d).

(** ** What a request meets outside the handler *)

(** Outcome of the notification block: whether [createTransporter()]
    returned, whether an administrator address is configured, and whether
    each [sendMail] promise was fulfilled. *)
Record Mail : Type := {
  transporter_created : bool;
  student_mail_sent : bool;
  admin_configured : bool;
  admin_mail_sent : bool
}.

Record Env : Type := {
  (** clock readings: the validator's [new Date()], the default of
      [enrollmentDate], the schema validator's [new Date()], the timestamps *)
  t_validate : Z;
  t_enrollment : Z;
  t_schema : Z;
  t_created : Z;
  (** the identity mongoose generates for the new document *)
  new_id : jsstring;
  (** [req.ip || req.connection.remoteAddress] and the User-Agent header *)
  req_ip : option jsstring;
  req_userAgent : option jsstring;
  (** documents other requests committed between this request's duplicate
      check and its write *)
  interleaved : list Student.t;
  (** the write fails for a reason that is neither validation nor a
      duplicate key *)
  storage_fault : bool;
  mail : Mail;
  (** whether the rate limiters let the request through *)
  within_general_limit : bool;
  within_form_limit : bool
}.

Inductive LogEvent : Type :=
| LogReceived
| LogSaved (id : jsstring)
| LogEmailsSent
| LogEmailFailed
| LogSubmissionError.

(** The Record Store and the console. *)
Record World : Type := {
  store : list Student.t;
  console : list LogEvent
}.

Definition say (e : LogEvent) (w : World) : World :=
  {| store := store w; console := console w ++ [e] |}.

Definition with_store (s : list Student.t) (w : World) : World :=
  {| store := s; console := console w |}.

(** ** The Record Store *)

Inductive SaveResult : Type :=
| Saved (doc : Student.t)
| DuplicateKey (key : jsstring)
| ValidationError (messages : list jsstring)
| StorageFailure.

(** The stored form of a document that passed validation. *)
Definition materialize (env : Env) (d : StudentData.t) : option Student.t :=
  firstName ← StudentData.firstName d;
  lastName ← StudentData.lastName d;
  email ← StudentData.email d;
  phone ← StudentData.phone d;
  idnumber ← StudentData.idnumber d;
  dateOfBirth ← StudentData.dateOfBirth d;
  course ← StudentData.course d;
  address ← StudentData.address d;
  city ← StudentData.city d;
  zipCode ← StudentData.zipCode d;
  emergencyContact ← StudentData.emergencyContact d;
  emergencyPhone ← StudentData.emergencyPhone d;
  Some {| Student._id := new_id env;
          Student.firstName := firstName;
          Student.lastName := lastName;
          Student.email := email;
          Student.phone := phone;
          Student.idnumber := idnumber;
          Student.dateOfBirth := dateOfBirth;
          Student.course := course;
          Student.address := address;
          Student.city := city;
          Student.zipCode := zipCode;
          Student.emergencyContact := emergencyContact;
          Student.emergencyPhone := emergencyPhone;
          Student.enrollmentDate := t_enrollment env;
          Student.status := u "pending";
          Student.ipAddress := StudentData.ipAddress d;
          Student.userAgent := StudentData.userAgent d;
          Student.createdAt := t_created env;
          Student.updatedAt := t_created env |}.

(** Modelled from the spec: the uniqueness the store enforces on create,
    over the identity and the two paths the schema declares [unique]. The
    result is the first key of the [keyValue] of the duplicate-key error
    (code 11000). *)
Definition unique_violation (doc : Student.t) (docs : list Student.t)
  : option jsstring :=
  if existsb (fun r => bool_decide (Student._id r = Student._id doc)) docs
  then Some (u "_id")
  else if existsb (fun r => bool_decide (Student.email r = Student.email doc)) docs
  then Some (u "email")
  else if existsb (fun r => bool_decide (Student.idnumber r = Student.idnumber doc)) docs
  then Some (u "idnumber")
  else None.

(** Modelled from the spec: [new Student(studentData).save()] against the
    documents [docs], the [create] of the Record Store: the record with its
    identity, or a validation error, or a constraint violation, or another
    failure. *)
Definition save `{Platform} (env : Env) (studentData : StudentData.t)
    (docs : list Student.t) : SaveResult * list Student.t :=
  let d := castStudent studentData in
  match schema_errors (t_schema env) d with
  | (_ :: _) as messages => (ValidationError messages, docs)
  | [] =>
      match materialize env d with
      | None => (StorageFailure, docs)
      | Some doc =>
          if storage_fault env then (StorageFailure, docs)
          else match unique_violation doc docs with
               | Some key => (DuplicateKey key, docs)
               | None => (Saved doc, docs ++ [doc])
               end
      end
  end.

(** The filter of the duplicate check, [{ $or: [{ email }, { idnumber }] }],
    after mongoose cast its two values with the setters of their paths. *)
Definition duplicate_filter `{Platform} (email : jsstring)
    (idnumber : option jsstring) (r : Student.t) : bool :=
  bool_decide (set_email (Some email) = Some (Student.email r))
  || bool_decide (set_string idnumber = Some (Student.idnumber r)).

(** Modelled from the spec: [Student.findOne(filter)], a document that
    passes the filter if there is one; the list is in the order the store
    scans. *)
Definition findOne (filter : Student.t -> bool) (docs : list Student.t)
  : option Student.t :=
  List.find filter docs.

(** Modelled from the spec: [Student.findById(id)] for an identity already
    cast, the [getById] of the Record Store. *)
Definition findById (id : jsstring) (docs : list Student.t) : option Student.t :=
  List.find (fun r => bool_decide (Student._id r = id)) docs.

(** ** Responses *)

Module Receipt.
Record t : Type := mk {
  studentId : jsstring;
  applicationId : jsstring;
  email : jsstring;
  course : jsstring;
  status : jsstring;
  submissionTime : Z
}.
End Receipt.

Inductive Json : Type :=
| ValidationBody (message : jsstring) (errors : list jsstring)
| ConflictBody (message : jsstring) (code : jsstring)
| CreatedBody (message : jsstring) (data : Receipt.t)
| FailureBody (message : jsstring) (code : jsstring)
| MessageBody (message : jsstring)
| StudentBody (student : Student.t).

(** [res.status(statusCode).json({ success, ... })] *)
Record Response : Type := {
  statusCode : N;
  success : bool;
  json : Json
}.

Definition validation_failed (errors : list jsstring) : Response :=
  {| statusCode := 400; success := false;
     json := ValidationBody (u "Validation failed") errors |}.

(** The 409 response of both places that report a duplicate; [field] is
    interpolated into the message. *)
Definition duplicate_entry (field : jsstring) : Response :=
  {| statusCode := 409; success := false;
     json := ConflictBody
               (u "A student with this " ++ field ++ u " already exists")
               (u "DUPLICATE_ENTRY") |}.

Definition internal_error : Response :=
  {| statusCode := 500; success := false;
     json := FailureBody (u "Internal server error. Please try again later.")
                         (u "INTERNAL_ERROR") |}.

(** [s.slice(-n)] *)
Definition slice_last (n : nat) (s : jsstring) : jsstring :=
  skipn (length s - n) s.

Definition receipt `{Platform} (savedStudent : Student.t) : Receipt.t :=
  {| Receipt.studentId := Student._id savedStudent;
     Receipt.applicationId := toUpperCase (slice_last 8 (Student._id savedStudent));
     Receipt.email := Student.email savedStudent;
     Receipt.course := Student.course savedStudent;
     Receipt.status := Student.status savedStudent;
     Receipt.submissionTime := Student.createdAt savedStudent |}.

Definition created `{Platform} (savedStudent : Student.t) : Response :=
  {| statusCode := 201; success := true;
     json := CreatedBody
               (u "Enrollment application submitted successfully! Please check your email for confirmation details.")
               (receipt savedStudent) |}.

(** ** The handler of [POST /send] *)

(** The [try] block around the two [sendMail] calls: whatever is thrown or
    rejected inside is caught and written to the console. *)
Definition emails_delivered (m : Mail) : bool :=
  transporter_created m
  && student_mail_sent m
  && (negb (admin_configured m) || admin_mail_sent m).

Definition notify (env : Env) (w : World) : World :=
  if emails_delivered (mail env) then say LogEmailsSent w
  else say LogEmailFailed w.

(** The object literal [studentData]. *)
Definition studentData `{Platform} (env : Env) (email : jsstring)
    (sanitizedData : gmap jsstring jsstring) : StudentData.t :=
  {| StudentData.firstName := sanitizedData !! u "firstName";
     StudentData.lastName := sanitizedData !! u "lastName";
     StudentData.email := Some (toLowerCase email);
     StudentData.phone := sanitizedData !! u "phone";
     StudentData.idnumber := sanitizedData !! u "idnumber";
     StudentData.dateOfBirth := sanitizedData !! u "dateOfBirth" ≫= Date_parse;
     StudentData.course := sanitizedData !! u "course";
     StudentData.address := sanitizedData !! u "address";
     StudentData.city := sanitizedData !! u "city";
     StudentData.zipCode := sanitizedData !! u "zipCode";
     StudentData.emergencyContact := sanitizedData !! u "emergencyContact";
     StudentData.emergencyPhone := sanitizedData !! u "emergencyPhone";
     StudentData.ipAddress := req_ip env;
     StudentData.userAgent := req_userAgent env |}.

(** The label the duplicate branch puts in its message: the ternary on
    [existingStudent.email === sanitizedData.email.toLowerCase()]. *)
Definition duplicateField `{Platform} (existingStudent : Student.t)
    (email : jsstring) : jsstring :=
  if bool_decide (Student.email existingStudent = toLowerCase email)
  then u "email" else u "ID number".

(** The [catch] block of the handler. *)
Definition on_save_error (r : SaveResult) : Response :=
  match r with
  | DuplicateKey key => duplicate_entry key
  | ValidationError messages => validation_failed messages
  | _ => internal_error
  end.

(** The body of the handler: sanitize every property of the body, validate,
    look for a duplicate, save, notify, answer. The write sees the store
    of the duplicate check followed by [interleaved env]. Reading
    [toLowerCase] from an absent email throws, and the [catch] block turns
    that into the generic failure. *)
Definition send `{Platform} (env : Env) (body : gmap jsstring jsstring)
    (w : World) : Response * World :=
  let w := say LogReceived w in
  let sanitizedData := sanitize_str <$> body in
  let validationErrors := validateEnrollmentData (t_validate env) sanitizedData in
  if (0 <? length validationErrors)%nat then
    (validation_failed validationErrors, w)
  else
    match sanitizedData !! u "email" with
    | None => (internal_error, say LogSubmissionError w)
    | Some email =>
        match findOne (duplicate_filter (toLowerCase email)
                                        (sanitizedData !! u "idnumber"))
                      (store w) with
        | Some existingStudent =>
            (duplicate_entry (duplicateField existingStudent email), w)
        | None =>
            match save env (studentData env email sanitizedData)
                       (store w ++ interleaved env) with
            | (Saved savedStudent, docs) =>
                let w := say (LogSaved (Student._id savedStudent))
                             (with_store docs w) in
                (created savedStudent, notify env w)
            | (failure, docs) =>
                (on_save_error failure,
                 say LogSubmissionError (with_store docs w))
            end
        end
    end.

(** ** The handler of [GET /api/students/:id] *)

Definition getStudent `{Platform} (id : jsstring) (w : World) : Response :=
  match ObjectId_cast id with
  | None =>
      {| statusCode := 400; success := false;
         json := MessageBody (u "Invalid student ID format") |}
  | Some oid =>
      match findById oid (store w) with
      | None =>
          {| statusCode := 404; success := false;
             json := MessageBody (u "Student not found") |}
      | Some student =>
          {| statusCode := 200; success := true; json := StudentBody student |}
      end
  end.

(** ** Routing

    The application is the list of its layers in the order the source
    registers them. A layer whose path and method match runs its handlers
    one after the other; a handler answers, hands over with [next()], or
    returns having done neither. Routes that can match neither a POST to
    [/send] or [/api/route] nor a GET of one student are left out
    ([GET /], [GET /api/students], [GET /health], [POST /test-email]), and
    so is the error middleware, which only runs after [next(err)]. *)

Inductive Method : Type := GET | POST.

Module Req.
Record t : Type := mk {
  method : Method;
  originalUrl : jsstring;
  url : jsstring;
  body : gmap jsstring jsstring
}.
End Req.

Inductive Step : Type :=
| Reply (r : Response)
| Next (req : Req.t)
| Pending.

Definition Handler : Type := Env -> Req.t -> World -> Step * World.

Record Layer : Type := {
  matches : Req.t -> bool;
  stack : list Handler
}.

Definition method_eqb (a b : Method) : bool :=
  match a, b with
  | GET, GET | POST, POST => true
  | _, _ => false
  end.

(** [app.METHOD(path, ...handlers)] for a literal path. *)
Definition route (m : Method) (path : jsstring) (hs : list Handler) : Layer :=
  {| matches := fun req => method_eqb (Req.method req) m
                           && bool_decide (Req.url req = path);
     stack := hs |}.

(** [app.use(handler)] and [app.use('*', handler)]: every request. *)
Definition use (h : Handler) : Layer :=
  {| matches := fun _ => true; stack := [h] |}.

(** The parameter of [/api/students/:id]: one non-empty segment. *)
Definition student_id_of (url : jsstring) : option jsstring :=
  let prefix := u "/api/students/" in
  if bool_decide (take (length prefix) url = prefix) then
    let id := drop (length prefix) url in
    if bool_decide (id = []) || existsb (N.eqb 47) id then None else Some id
  else None.

Arguments student_id_of : simpl never.

(** Middleware that only decorates the request or the response. *)
Definition pass_through : Handler := fun _ req w => (Next req, w).

Definition too_many (message : jsstring) : Response :=
  {| statusCode := 429; success := false; json := MessageBody message |}.

Definition limiter : Handler := fun env req w =>
  if within_general_limit env then (Next req, w)
  else (Reply (too_many
          (u "Too many requests from this IP, please try again later.")), w).

Definition formLimiter : Handler := fun env req w =>
  if within_form_limit env then (Next req, w)
  else (Reply (too_many
          (u "Too many enrollment attempts. Please try again in 15 minutes.")), w).

Definition send_handler `{Platform} : Handler := fun env req w =>
  let (res, w') := send env (Req.body req) w in (Reply res, w').

(** First handler of [/api/route]: [req.url = '/send'; next();] *)
Definition redirect_to_send : Handler := fun _ req w =>
  (Next {| Req.method := Req.method req;
           Req.originalUrl := Req.originalUrl req;
           Req.url := u "/send";
           Req.body := Req.body req |}, w).

(** Last handler of [/api/route]: an [async] function with an empty body. *)
Definition empty_handler : Handler := fun _ _ w => (Pending, w).

Definition student_handler `{Platform} : Handler := fun _ req w =>
  match student_id_of (Req.url req) with
  | Some id => (Reply (getStudent id w), w)
  | None => (Next req, w)
  end.

Definition not_found : Handler := fun _ req w =>
  (Reply {| statusCode := 404; success := false;
            json := MessageBody (u "API endpoint '" ++ Req.originalUrl req
                                 ++ u "' not found") |}, w).

Definition app `{Platform} : list Layer :=
  [ use pass_through;                                   (* helmet *)
    use limiter;
    use pass_through;                                   (* cors *)
    use pass_through;                                   (* express.json *)
    use pass_through;                                   (* express.urlencoded *)
    route POST (u "/send") [formLimiter; send_handler];
    route POST (u "/api/route") [redirect_to_send; formLimiter; empty_handler];
    {| matches := fun req => method_eqb (Req.method req) GET
                             && bool_decide (is_Some (student_id_of (Req.url req)));
       stack := [student_handler] |};
    use not_found ].

(** The handlers of one layer, each started by the [next()] of the one
    before. *)
Fixpoint run_stack (hs : list Handler) (env : Env) (req : Req.t) (w : World)
  : Step * World :=
  match hs with
  | [] => (Next req, w)
  | h :: rest =>
      match h env req w with
      | (Next req', w') => run_stack rest env req' w'
      | done => done
      end
  end.

(** The router: layers are tried in order against the request as it is
    when they are reached. [Next] at the end means that no layer answered
    and none is left. *)
Fixpoint run_layers (ls : list Layer) (env : Env) (req : Req.t) (w : World)
  : Step * World :=
  match ls with
  | [] => (Next req, w)
  | l :: rest =>
      if matches l req then
        match run_stack (stack l) env req w with
        | (Next req', w') => run_layers rest env req' w'
        | done => done
        end
      else run_layers rest env req w
  end.

Definition request (m : Method) (path : jsstring)
    (body : gmap jsstring jsstring) : Req.t :=
  {| Req.method := m; Req.originalUrl := path; Req.url := path;
     Req.body := body |}.

(** What the server does with a request. *)
Definition serve `{Platform} (env : Env) (req : Req.t) (w : World)
  : Step * World :=
  run_layers app env req w.

(** ** Laws of the library functions

    What the invariants of the store need from the case conversion:
    lower-casing twice is lower-casing once, and it neither creates nor
    removes white space at the ends of a string. *)

Class PlatformLaws (P : Platform) : Prop := {
  toLowerCase_idem : forall s, toLowerCase (toLowerCase s) = toLowerCase s;
  toLowerCase_trim : forall s, toLowerCase (trim s) = trim (toLowerCase s)
}.

(** A stored document whose strings the setters of the schema leave as
    they are; every document written by [save] is of this kind. *)
Definition stored_form `{Platform} (r : Student.t) : Prop :=
  trim (toLowerCase (Student.email r)) = Student.email r
  /\ trim (Student.idnumber r) = Student.idnumber r.

(** The same environment with another outcome of the notification. *)
Definition with_mail (m : Mail) (env : Env) : Env :=
  {| t_validate := t_validate env;
     t_enrollment := t_enrollment env;
     t_schema := t_schema env;
     t_created := t_created env;
     new_id := new_id env;
     req_ip := req_ip env;
     req_userAgent := req_userAgent env;
     interleaved := interleaved env;
     storage_fault := storage_fault env;
     mail := m;
     within_general_limit := within_general_limit env;
     within_form_limit := within_form_limit env |}.


(** ** A concrete platform and concrete requests

    Stand-ins for the library functions, used to run the model on sample
    inputs: ASCII case conversion, a plain address test, dates of the form
    YYYY-MM-DD read as UTC midnight, identities of 24 hexadecimal digits. *)

Module Demo.

Definition lower_unit (c : N) : N :=
  if (65 <=? c) && (c <=? 90) then c + 32 else c.

Definition upper_unit (c : N) : N :=
  if (97 <=? c) && (c <=? 122) then c - 32 else c.

Definition lower (s : jsstring) : jsstring := map lower_unit s.
Definition upper (s : jsstring) : jsstring := map upper_unit s.

Definition is_address_char (c : N) : bool :=
  (33 <=? c) && (c <=? 126) && negb (c =? 64).

Fixpoint before_at (s : jsstring) : jsstring :=
  match s with
  | [] => []
  | c :: r => if c =? 64 then [] else c :: before_at r
  end.

Fixpoint after_at (s : jsstring) : jsstring :=
  match s with
  | [] => []
  | c :: r => if c =? 64 then r else after_at r
  end.

(** local@domain with a dot inside the domain and no blank anywhere. *)
Definition plain_email (s : jsstring) : bool :=
  match List.filter (N.eqb 64) s with
  | [_] =>
      let local := before_at s in
      let domain := after_at s in
      negb (bool_decide (local = []))
      && forallb is_address_char local
      && forallb is_address_char domain
      && existsb (N.eqb 46) domain
      && negb (bool_decide (head domain = Some 46))
      && negb (bool_decide (last domain = Some 46))
  | _ => false
  end.

Definition digit (c : N) : option Z :=
  if (48 <=? c) && (c <=? 57) then Some (Z.of_N c - 48)%Z else None.

Definition is_leap (y : Z) : bool :=
  ((y mod 4 =? 0) && negb (y mod 100 =? 0) || (y mod 400 =? 0))%Z.

Definition days_in_month (y m : Z) : Z :=
  (if m =? 2 then (if is_leap y then 29 else 28)
   else if (m =? 4) || (m =? 6) || (m =? 9) || (m =? 11) then 30 else 31)%Z.

(** Days from 1970-01-01 to the given civil date. *)
Definition days_from_civil (y m d : Z) : Z :=
  (let y' := if m <=? 2 then y - 1 else y in
   let era := y' / 400 in
   let yoe := y' - era * 400 in
   let mp := if 2 <? m then m - 3 else m + 9 in
   let doy := (153 * mp + 2) / 5 + d - 1 in
   let doe := yoe * 365 + yoe / 4 - yoe / 100 + doy in
   era * 146097 + doe - 719468)%Z.

Definition parse_date (s : jsstring) : option Z :=
  match s with
  | [y1; y2; y3; y4; 45; m1; m2; 45; d1; d2] =>
      a ← digit y1; b ← digit y2; c ← digit y3; d ← digit y4;
      e ← digit m1; f ← digit m2; g ← digit d1; h ← digit d2;
      (let y := 1000 * a + 100 * b + 10 * c + d in
       let m := 10 * e + f in
       let dd := 10 * g + h in
       if (1 <=? m) && (m <=? 12) && (1 <=? dd) && (dd <=? days_in_month y m)
       then Some (days_from_civil y m dd * 86400000)
       else None)%Z
  | _ => None
  end.

Definition is_hex (c : N) : bool :=
  ((48 <=? c) && (c <=? 57)) || ((97 <=? c) && (c <=? 102))
  || ((65 <=? c) && (c <=? 70)).

Definition cast_id (s : jsstring) : option jsstring :=
  if (length s =? 24)%nat && forallb is_hex s then Some (lower s) else None.

Definition cast_message : jsstring :=
  u "Cast to date failed for value " ++ [34] ++ u "Invalid Date" ++ [34]
  ++ u " (type Date) at path " ++ [34] ++ u "dateOfBirth" ++ [34].

#[export] Instance platform : Platform := {|
  isEmail := plain_email;
  Date_parse := parse_date;
  toLowerCase := lower;
  toUpperCase := upper;
  ObjectId_cast := cast_id;
  castDateMessage := cast_message
|}.

(** 2026-01-01T00:00:00Z *)
Definition new_year_2026 : Z := 1767225600000.

Definition all_sent : Mail :=
  {| transporter_created := true; student_mail_sent := true;
     admin_configured := true; admin_mail_sent := true |}.

Definition none_sent : Mail :=
  {| transporter_created := false; student_mail_sent := false;
     admin_configured := true; admin_mail_sent := false |}.

Definition env0 : Env :=
  {| t_validate := new_year_2026;
     t_enrollment := new_year_2026;
     t_schema := new_year_2026;
     t_created := new_year_2026;
     new_id := u "65a1b2c3d4e5f60718293a4b";
     req_ip := Some (u "203.0.113.7");
     req_userAgent := None;
     interleaved := [];
     storage_fault := false;
     mail := all_sent;
     within_general_limit := true;
     within_form_limit := true |}.

Definition world0 : World := {| store := []; console := [] |}.

(** The submission of the spec's scenario, with padding and markup added
    to three fields and an address the schema accepts. *)
Definition ann : gmap jsstring jsstring :=
  list_to_map
    [ (u "firstName", u "  <b>Ann ");
      (u "lastName", u "Lee");
      (u "email", u " ANN@X.COM");
      (u "phone", u "123-456-7890");
      (u "idnumber", u "ID12345");
      (u "dateOfBirth", u "2000-01-01");
      (u "course", u "Computer Science");
      (u "address", u "12 Main Street");
      (u "city", u "Springfield");
      (u "zipCode", u "00001");
      (u "emergencyContact", u "Bob Lee");
      (u "emergencyPhone", u "111-222-3333") ].

(** The document [ann] becomes. *)
Definition ann_doc : Student.t :=
  {| Student._id := u "65a1b2c3d4e5f60718293a4b";
     Student.firstName := u "bAnn";
     Student.lastName := u "Lee";
     Student.email := u "ann@x.com";
     Student.phone := u "123-456-7890";
     Student.idnumber := u "ID12345";
     Student.dateOfBirth := 946684800000;
     Student.course := u "Computer Science";
     Student.address := u "12 Main Street";
     Student.city := u "Springfield";
     Student.zipCode := u "00001";
     Student.emergencyContact := u "Bob Lee";
     Student.emergencyPhone := u "111-222-3333";
     Student.enrollmentDate := new_year_2026;
     Student.status := u "pending";
     Student.ipAddress := Some (u "203.0.113.7");
     Student.userAgent := None;
     Student.createdAt := new_year_2026;
     Student.updatedAt := new_year_2026 |}.


(** [ann] without a last name and with a blank city. *)
Definition two_missing : gmap jsstring jsstring :=
  <[u "city" := u "  "]> (delete (u "lastName") ann).

(** [ann] born on 2010-06-15, fifteen years old at [new_year_2026]. *)
Definition teen : gmap jsstring jsstring :=
  <[u "dateOfBirth" := u "2010-06-15"]> ann.

(** [ann] with a date of birth that is not a date. *)
Definition dreamer : gmap jsstring jsstring :=
  <[u "dateOfBirth" := u "soon"]> ann.


End Demo.

(** ** Notions of the spec used in the statements *)

(** A submitted field that is absent or empty once trimmed. *)
Definition empty_after_trimming (o : option jsstring) : Prop :=
  match o with
  | None => True
  | Some s => trim s = []
  end.

(** The string paths of a stored document other than the email, each with
    the name of the submitted field it comes from. *)
Definition string_fields : list (jsstring * (Student.t -> jsstring)) :=
  [ (u "firstName", Student.firstName);
    (u "lastName", Student.lastName);
    (u "phone", Student.phone);
    (u "idnumber", Student.idnumber);
    (u "course", Student.course);
    (u "address", Student.address);
    (u "city", Student.city);
    (u "zipCode", Student.zipCode);
    (u "emergencyContact", Student.emergencyContact);
    (u "emergencyPhone", Student.emergencyPhone) ].

(** The characters of a phone number that are not white space. *)
Definition is_dial_char (c : N) : bool :=
  ((48 <=? c) && (c <=? 57)) || (c =? 45) || (c =? 43) || (c =? 40) || (c =? 41).

(** Every message the validator can push, in the order it pushes them. *)
Definition all_messages : list jsstring :=
  map required_message requiredFields
  ++ [email_message; phone_message; emergency_phone_message; age_message].

(** What the schema asks of a stored document, read at the clock [now]. *)
Definition satisfies_schema `{Platform} (now : Z) (doc : Student.t) : Prop :=
  (2 <= length (Student.firstName doc) <= 50)%nat
  /\ (2 <= length (Student.lastName doc) <= 50)%nat
  /\ isEmail (Student.email doc) = true
  /\ phone_test (Student.phone doc) = true
  /\ (6 <= length (Student.idnumber doc))%nat
  /\ (16 <= (now - Student.dateOfBirth doc) / msPerYear <= 100)%Z
  /\ In (Student.course doc) courses
  /\ (10 <= length (Student.address doc))%nat
  /\ Student.city doc <> []
  /\ Student.zipCode doc <> []
  /\ Student.emergencyContact doc <> []
  /\ phone_test (Student.emergencyPhone doc) = true
  /\ Student.status doc = u "pending".

(** The uniqueness the store keeps: no two documents share an identity,
    an email or an id number. *)
Definition unique_keys (docs : list Student.t) : Prop :=
  NoDup (map Student._id docs)
  /\ NoDup (map Student.email docs)
  /\ NoDup (map Student.idnumber docs).

(** ** The mail transport of the intake server *)

Module ProcessEnv.
Record t : Type := mk {
  EMAIL_SERVICE : option jsstring;
  EMAIL_USER : option jsstring;
  EMAIL_PASS : option jsstring;
  SENDGRID_API_KEY : option jsstring;
  MAILGUN_SMTP_LOGIN : option jsstring;
  MAILGUN_SMTP_PASSWORD : option jsstring
}.
End ProcessEnv.

(** The two shapes of the entries of [transporterConfigs]: a named service
    with its credentials, or a host with port, [secure] and credentials. *)
Inductive TransportConfig : Type :=
| ServiceConfig (service : jsstring) (user pass : option jsstring)
| SmtpConfig (host : jsstring) (port : N) (secure : bool)
             (user pass : option jsstring).

(** The object literal [transporterConfigs], in the order it is written. *)
Definition transporterConfigs (e : ProcessEnv.t)
  : list (jsstring * TransportConfig) :=
  [ (u "gmail",
     ServiceConfig (u "gmail") (ProcessEnv.EMAIL_USER e) (ProcessEnv.EMAIL_PASS e));
    (u "sendgrid",
     SmtpConfig (u "smtp.sendgrid.net") 587 false (Some (u "apikey"))
                (ProcessEnv.SENDGRID_API_KEY e));
    (u "mailgun",
     SmtpConfig (u "smtp.mailgun.org") 587 false
                (ProcessEnv.MAILGUN_SMTP_LOGIN e)
                (ProcessEnv.MAILGUN_SMTP_PASSWORD e));
    (u "outlook",
     ServiceConfig (u "hotmail") (ProcessEnv.EMAIL_USER e) (ProcessEnv.EMAIL_PASS e)) ].

(** The properties every object literal inherits from [Object.prototype];
    reading one of them with [obj[key]] gives a truthy value. *)
Definition inherited_keys : list jsstring :=
  [ u "constructor"; u "__defineGetter__"; u "__defineSetter__";
    u "hasOwnProperty"; u "__lookupGetter__"; u "__lookupSetter__";
    u "isPrototypeOf"; u "propertyIsEnumerable"; u "toString"; u "valueOf";
    u "__proto__"; u "toLocaleString" ].

(** What [transporterConfigs[emailService]] evaluates to. *)
Inductive Member : Type :=
| OwnConfig (config : TransportConfig)
| InheritedMember (key : jsstring).

Fixpoint own_config (entries : list (jsstring * TransportConfig))
    (key : jsstring) : option TransportConfig :=
  match entries with
  | [] => None
  | (k, c) :: rest => if bool_decide (k = key) then Some c else own_config rest key
  end.

Definition member (entries : list (jsstring * TransportConfig))
    (key : jsstring) : option Member :=
  match own_config entries key with
  | Some c => Some (OwnConfig c)
  | None =>
      if bool_decide (key ∈ inherited_keys) then Some (InheritedMember key)
      else None
  end.

(** [process.env.EMAIL_SERVICE || 'gmail'] *)
Definition emailService (e : ProcessEnv.t) : jsstring :=
  match ProcessEnv.EMAIL_SERVICE e with
  | Some (c :: s) => c :: s
  | _ => u "gmail"
  end.

(** Outcome of [createTransporter()]: the error it throws, or the value it
    hands to the mail library. *)
Inductive Transport : Type :=
| Unsupported (message : jsstring)
| HandedOver (config : Member).

Definition createTransporter (e : ProcessEnv.t) : Transport :=
  match member (transporterConfigs e) (emailService e) with
  | None => Unsupported (u "Unsupported email service: " ++ emailService e)
  | Some config => HandedOver config
  end.

(** ** The first server of the file

    The server that only mails the application: [getLocalIP] and the
    handler of [POST /api/enrollment]. *)

Module Legacy.

(** An entry of [os.networkInterfaces()]. *)
Record NetIf : Type := {
  family : jsstring;
  internal : bool;
  address : jsstring
}.

(** The inner loop of [getLocalIP]. *)
Fixpoint first_external (entries : list NetIf) : option jsstring :=
  match entries with
  | [] => None
  | i :: rest =>
      if bool_decide (family i = u "IPv4") && negb (internal i)
      then Some (address i) else first_external rest
  end.

(** [getLocalIP()], over the interfaces in the order of their names. *)
Fixpoint getLocalIP (interfaces : list (jsstring * list NetIf)) : jsstring :=
  match interfaces with
  | [] => u "localhost"
  | (_, entries) :: rest =>
      match first_external entries with
      | Some a => a
      | None => getLocalIP rest
      end
  end.

(** The entry [getLocalIP] looks for. *)
Definition external_ipv4 (i : NetIf) : bool :=
  bool_decide (family i = u "IPv4") && negb (internal i).

(** The fields of the [if] that answers 400, in its order. *)
Definition required : list jsstring :=
  [ u "firstName"; u "lastName"; u "email"; u "phone"; u "idnumber";
    u "dateOfBirth"; u "course"; u "address"; u "city"; u "zipCode" ].

(** What is handed to [transporter.sendMail], without the html text. *)
Record Envelope : Type := {
  from : option jsstring;
  to : option jsstring;
  subject : jsstring;
  replyTo : option jsstring
}.

(** The mail account and whether the transport fulfils each of the two
    [sendMail] promises. *)
Record Link : Type := {
  EMAIL_USER : option jsstring;
  admin_accepted : bool;
  student_accepted : bool
}.

Definition adminAddress : jsstring := u "nguyagwamarkderrick@gmail.com".

Definition admin_envelope (link : Link) (body : gmap jsstring jsstring)
  : Envelope :=
  {| from := EMAIL_USER link;
     to := Some adminAddress;
     subject := u "New Student Enrollment - "
                ++ default [] (body !! u "firstName") ++ u " "
                ++ default [] (body !! u "lastName");
     replyTo := body !! u "email" |}.

Definition student_envelope (link : Link) (body : gmap jsstring jsstring)
  : Envelope :=
  {| from := EMAIL_USER link;
     to := body !! u "email";
     subject := u "Enrollment Application Received - EastView Training Institute";
     replyTo := None |}.

Definition answer (code : N) (ok : bool) (message : jsstring) : Response :=
  {| statusCode := code; success := ok; json := MessageBody message |}.

(** The handler of [POST /api/enrollment]. The second component lists the
    mails handed to the transport, in order. *)
Definition enrollment (link : Link) (body : gmap jsstring jsstring)
  : Response * list Envelope :=
  if existsb (fun field => negb (truthy (body !! field))) required then
    (answer 400 false (u "Please fill in all required fields"), [])
  else if negb (admin_accepted link) then
    (answer 500 false (u "Failed to process enrollment. Please try again."),
     [admin_envelope link body])
  else if negb (student_accepted link) then
    (answer 500 false (u "Failed to process enrollment. Please try again."),
     [admin_envelope link body; student_envelope link body])
  else
    (answer 200 true
       (u "Enrollment application submitted successfully! Check your email for confirmation."),
     [admin_envelope link body; student_envelope link body]).

End Legacy.

(** ** Sequences of submissions

    The world after the requests of a list were handled by [POST /send] one
    after the other, each in the environment it met. *)

Definition submissions `{Platform}
    (reqs : list (Env * gmap jsstring jsstring)) (w : World) : World :=
  fold_left (fun w r => snd (send (fst r) (snd r) w)) reqs w.

(** ** More sample data *)

Module Cases.

Definition sendgrid_env : ProcessEnv.t :=
  {| ProcessEnv.EMAIL_SERVICE := Some (u "sendgrid");
     ProcessEnv.EMAIL_USER := Some (u "office@example.org");
     ProcessEnv.EMAIL_PASS := Some (u "secret");
     ProcessEnv.SENDGRID_API_KEY := Some (u "SG.key");
     ProcessEnv.MAILGUN_SMTP_LOGIN := None;
     ProcessEnv.MAILGUN_SMTP_PASSWORD := None |}.

Definition yahoo_env : ProcessEnv.t :=
  {| ProcessEnv.EMAIL_SERVICE := Some (u "yahoo");
     ProcessEnv.EMAIL_USER := Some (u "office@example.org");
     ProcessEnv.EMAIL_PASS := Some (u "secret");
     ProcessEnv.SENDGRID_API_KEY := None;
     ProcessEnv.MAILGUN_SMTP_LOGIN := None;
     ProcessEnv.MAILGUN_SMTP_PASSWORD := None |}.

Definition loopback : Legacy.NetIf :=
  {| Legacy.family := u "IPv4"; Legacy.internal := true;
     Legacy.address := u "127.0.0.1" |}.

Definition lan6 : Legacy.NetIf :=
  {| Legacy.family := u "IPv6"; Legacy.internal := false;
     Legacy.address := u "fe80::1" |}.

Definition lan4 : Legacy.NetIf :=
  {| Legacy.family := u "IPv4"; Legacy.internal := false;
     Legacy.address := u "192.168.1.20" |}.

Definition interfaces : list (jsstring * list Legacy.NetIf) :=
  [ (u "lo", [loopback]); (u "eth0", [lan6; lan4]) ].

Definition good_link : Legacy.Link :=
  {| Legacy.EMAIL_USER := Some (u "office@example.org");
     Legacy.admin_accepted := true;
     Legacy.student_accepted := true |}.

Definition admin_down : Legacy.Link :=
  {| Legacy.EMAIL_USER := Some (u "office@example.org");
     Legacy.admin_accepted := false;
     Legacy.student_accepted := true |}.

(** The environment of a later request: another identity, a later clock. *)
Definition env_later : Env :=
  {| t_validate := Demo.new_year_2026 + 60000;
     t_enrollment := Demo.new_year_2026 + 60000;
     t_schema := Demo.new_year_2026 + 60000;
     t_created := Demo.new_year_2026 + 60000;
     new_id := u "65a1b2c3d4e5f60718293a4c";
     req_ip := None;
     req_userAgent := None;
     interleaved := [];
     storage_fault := false;
     mail := Demo.none_sent;
     within_general_limit := true;
     within_form_limit := true |}.

(** [Demo.env0] with the general limit used up, and with the form limit
    used up. *)
Definition env_throttled : Env :=
  {| t_validate := Demo.new_year_2026;
     t_enrollment := Demo.new_year_2026;
     t_schema := Demo.new_year_2026;
     t_created := Demo.new_year_2026;
     new_id := u "65a1b2c3d4e5f60718293a4b";
     req_ip := None;
     req_userAgent := None;
     interleaved := [];
     storage_fault := false;
     mail := Demo.all_sent;
     within_general_limit := false;
     within_form_limit := true |}.

Definition env_form_throttled : Env :=
  {| t_validate := Demo.new_year_2026;
     t_enrollment := Demo.new_year_2026;
     t_schema := Demo.new_year_2026;
     t_created := Demo.new_year_2026;
     new_id := u "65a1b2c3d4e5f60718293a4b";
     req_ip := None;
     req_userAgent := None;
     interleaved := [];
     storage_fault := false;
     mail := Demo.all_sent;
     within_general_limit := true;
     within_form_limit := false |}.

Definition env_faulty : Env :=
  {| t_validate := Demo.new_year_2026;
     t_enrollment := Demo.new_year_2026;
     t_schema := Demo.new_year_2026;
     t_created := Demo.new_year_2026;
     new_id := u "65a1b2c3d4e5f60718293a4b";
     req_ip := None;
     req_userAgent := None;
     interleaved := [];
     storage_fault := true;
     mail := Demo.all_sent;
     within_general_limit := true;
     within_form_limit := true |}.

(** Another applicant, and the same applicant writing the address of
    [Demo.ann] in another case and with padding. *)
Definition carl : gmap jsstring jsstring :=
  <[u "email" := u "carl@x.com"]> (<[u "idnumber" := u "ID99999"]> Demo.ann).

Definition ann_again : gmap jsstring jsstring :=
  <[u "email" := u "Ann@X.com  "]> (<[u "idnumber" := u "ID55555"]> Demo.ann).

Definition world_with_ann : World :=
  {| store := [Demo.ann_doc]; console := [] |}.

End Cases.

(** * Proofs *)

(** ** Facts about [trim] and the two filters *)

Section StringFacts.

Lemma trimStart_app_ws (w s : jsstring) :
  forallb is_ws w = true -> trimStart (w ++ s) = trimStart s.
Proof.
  induction w as [|c w IH]; simpl; [reflexivity|].
  intros H. apply andb_prop in H as [Hc Hw]. rewrite Hc. auto.
Qed.

Lemma trimStart_all_ws (w : jsstring) :
  forallb is_ws w = true -> trimStart w = [].
Proof.
  intros H. rewrite <- (app_nil_r w). rewrite trimStart_app_ws; auto.
Qed.

Lemma trimStart_idem (s : jsstring) : trimStart (trimStart s) = trimStart s.
Proof.
  induction s as [|c r IH]; simpl; [reflexivity|].
  destruct (is_ws c) eqn:E; [exact IH|]. simpl. now rewrite E.
Qed.

(** [trimStart] splits its argument into a white prefix and the rest. *)
Lemma trimStart_split (s : jsstring) :
  exists w, forallb is_ws w = true /\ s = w ++ trimStart s.
Proof.
  induction s as [|c r [w [Hw Hs]]]; simpl.
  - exists []. split; reflexivity.
  - destruct (is_ws c) eqn:E.
    + exists (c :: w). simpl. rewrite E, Hw. split; [reflexivity|].
      now rewrite <- Hs.
    + exists []. split; reflexivity.
Qed.

Lemma trimStart_head (s : jsstring) (c : N) (r : jsstring) :
  trimStart s = c :: r -> is_ws c = false.
Proof.
  induction s as [|d t IH]; simpl; [discriminate|].
  destruct (is_ws d) eqn:E; [exact IH|].
  intros H. injection H as -> _. exact E.
Qed.

(** Dropping leading white space does not disturb the end of the string. *)
Lemma trimStart_snoc (s : jsstring) (c : N) :
  is_ws c = false -> trimStart (s ++ [c]) = trimStart s ++ [c].
Proof.
  intros Hc. induction s as [|d t IH]; simpl.
  - now rewrite Hc.
  - destruct (is_ws d); [exact IH | reflexivity].
Qed.

Lemma trimEnd_snoc_ws (s : jsstring) (c : N) :
  is_ws c = true -> trimEnd (s ++ [c]) = trimEnd s.
Proof.
  intros Hc. unfold trimEnd. rewrite rev_app_distr. simpl. now rewrite Hc.
Qed.

Lemma trimEnd_snoc_nws (s : jsstring) (c : N) :
  is_ws c = false -> trimEnd (s ++ [c]) = s ++ [c].
Proof.
  intros Hc. unfold trimEnd. rewrite rev_app_distr. simpl. rewrite Hc.
  simpl. now rewrite rev_involutive.
Qed.

Lemma trimEnd_idem (s : jsstring) : trimEnd (trimEnd s) = trimEnd s.
Proof.
  unfold trimEnd. rewrite rev_involutive. now rewrite trimStart_idem.
Qed.

(** The two halves of [trim] commute. *)
Lemma trimStart_trimEnd (s : jsstring) :
  trimStart (trimEnd s) = trimEnd (trimStart s).
Proof.
  induction s as [|c s IH] using rev_ind; [reflexivity|].
  destruct (is_ws c) eqn:E.
  - rewrite trimEnd_snoc_ws by exact E. rewrite IH.
    destruct (trimStart_split s) as [w [Hw Hs]].
    destruct (trimStart s) as [|d t] eqn:Ets.
    + rewrite app_nil_r in Hs. subst w.
      rewrite (trimStart_all_ws (s ++ [c])); [reflexivity|].
      rewrite forallb_app, Hw. simpl. now rewrite E.
    + assert (Hd : is_ws d = false) by (eapply trimStart_head; eauto).
      assert (Hx : trimStart (s ++ [c]) = (d :: t) ++ [c]).
      { rewrite Hs at 1. rewrite <- app_assoc.
        rewrite trimStart_app_ws by exact Hw. simpl. now rewrite Hd. }
      rewrite Hx. now rewrite trimEnd_snoc_ws.
  - rewrite trimEnd_snoc_nws by exact E.
    rewrite trimStart_snoc by exact E.
    now rewrite trimEnd_snoc_nws.
Qed.

Lemma trim_idem (s : jsstring) : trim (trim s) = trim s.
Proof.
  unfold trim. rewrite trimStart_trimEnd, trimStart_idem.
  now rewrite trimEnd_idem.
Qed.



Lemma trimEnd_split (s : jsstring) :
  exists w, forallb is_ws w = true /\ s = trimEnd s ++ w.
Proof.
  destruct (trimStart_split (rev s)) as [w [Hw Hs]].
  exists (rev w). split.
  - rewrite forallb_forall in *. intros c Hc. apply Hw. now apply in_rev.
  - unfold trimEnd. rewrite <- rev_app_distr, <- Hs. now rewrite rev_involutive.
Qed.

(** A string is its trimmed middle between two runs of white space. *)
Lemma trim_split (s : jsstring) :
  exists w1 w2, forallb is_ws w1 = true /\ forallb is_ws w2 = true
                /\ s = w1 ++ trim s ++ w2.
Proof.
  destruct (trimStart_split s) as [w1 [H1 Hs1]].
  destruct (trimEnd_split (trimStart s)) as [w2 [H2 Hs2]].
  exists w1, w2. repeat split; try assumption.
  unfold trim. now rewrite <- Hs2.
Qed.







Lemma strip_markup_clean (s : jsstring) : has_markup (strip_markup s) = false.
Proof.
  induction s as [|c s IH]; simpl; [reflexivity|].
  destruct (is_markup c) eqn:E; simpl; [exact IH|]. now rewrite E.
Qed.

Lemma strip_markup_id (s : jsstring) :
  has_markup s = false -> strip_markup s = s.
Proof.
  induction s as [|c s IH]; simpl; [reflexivity|].
  intros H. apply orb_false_elim in H as [Hc Hs].
  rewrite Hc. simpl. now rewrite IH.
Qed.

Lemma has_markup_app (a b : jsstring) :
  has_markup (a ++ b) = has_markup a || has_markup b.
Proof. unfold has_markup. apply existsb_app. Qed.

(** Trimming only removes characters. *)
Lemma has_markup_trim (s : jsstring) :
  has_markup s = false -> has_markup (trim s) = false.
Proof.
  destruct (trim_split s) as (w1 & w2 & _ & _ & Hs).
  intros H. rewrite Hs in H. rewrite !has_markup_app in H.
  apply orb_false_elim in H as [_ H]. now apply orb_false_elim in H as [H _].
Qed.


Lemma sanitize_str_unfold (s : jsstring) :
  sanitize_str s = strip_markup (trim s).
Proof. reflexivity. Qed.

Lemma sanitizeInput_string (s : jsstring) :
  sanitizeInput (VStr s) = VStr (sanitize_str s).
Proof. reflexivity. Qed.

Lemma sanitize_str_clean (s : jsstring) : has_markup (sanitize_str s) = false.
Proof. apply strip_markup_clean. Qed.



Lemma sanitize_str_plain (s : jsstring) :
  has_markup s = false -> sanitize_str s = trim s.
Proof. intros H. apply strip_markup_id, has_markup_trim, H. Qed.





End StringFacts.

(** ** The sanitizer *)




(** ** The validator *)

Section Validator.

Context `{P : Platform}.

(** The presence test is the spec's notion of a missing field. *)
Lemma is_missing_spec (data : gmap jsstring jsstring) (field : jsstring) :
  is_missing data field = true <-> empty_after_trimming (data !! field).
Proof.
  unfold is_missing, empty_after_trimming.
  destruct (data !! field) as [s|]; simpl; [|tauto].
  destruct s as [|c s]; simpl; [tauto|].
  destruct (trim (c :: s)); simpl; split; congruence.
Qed.

Lemma required_errors_spec (data : gmap jsstring jsstring) (m : jsstring) :
  In m (required_errors data) <->
  exists field, In field requiredFields /\ is_missing data field = true
                /\ m = required_message field.
Proof.
  unfold required_errors. rewrite in_flat_map. split.
  - intros (f & Hf & Hm). exists f. destruct (is_missing data f).
    + destruct Hm as [<-|[]]. auto.
    + destruct Hm.
  - intros (f & Hf & Hmiss & ->). exists f. rewrite Hmiss. simpl. auto.
Qed.

Lemma push_if_in (c : bool) (msg m : jsstring) :
  In m (push_if c msg) <-> c = true /\ m = msg.
Proof.
  destruct c; simpl; split; try tauto.
  - intros [<-|[]]. auto.
  - intros [_ ->]. auto.
  - intros [H _]. discriminate.
Qed.

(** Every message a rule pushes is in the result, whatever the other rules
    found. *)
Lemma validate_collects (now : Z) (data : gmap jsstring jsstring) (m : jsstring) :
  In m (validateEnrollmentData now data) <->
  In m (required_errors data) \/ In m (email_errors data)
  \/ In m (phone_errors data) \/ In m (emergency_phone_errors data)
  \/ In m (age_errors now data).
Proof. unfold validateEnrollmentData. rewrite !in_app_iff. tauto. Qed.

Lemma age_message_fresh :
  age_message <> email_message /\ age_message <> phone_message
  /\ age_message <> emergency_phone_message
  /\ forall field, In field requiredFields -> required_message field <> age_message.
Proof.
  repeat split; try discriminate.
  intros field Hf. unfold requiredFields in Hf. simpl in Hf.
  repeat (destruct Hf as [<-|Hf]; [vm_compute; discriminate|]).
  destruct Hf.
Qed.

(** The age message can only come from the age rule. *)
Lemma age_message_in (now : Z) (data : gmap jsstring jsstring) :
  In age_message (validateEnrollmentData now data) <->
  truthy (data !! u "dateOfBirth") = true
  /\ age_out_of_bounds (age_at now (data !! u "dateOfBirth" ≫= Date_parse)) = true.
Proof.
  destruct age_message_fresh as (He & Hp & Hq & Hr).
  rewrite validate_collects, required_errors_spec.
  unfold email_errors, phone_errors, emergency_phone_errors, age_errors.
  rewrite !push_if_in. split.
  - intros [(f & Hf & _ & Hm)|[[_ H]|[[_ H]|[[_ H]|[H _]]]]]; try congruence.
    + exfalso. eapply Hr; eauto.
    + now apply andb_prop in H.
  - intros [H1 H2]. do 4 right. rewrite H1, H2. auto.
Qed.

End Validator.

(** ** The validation branch of the handler *)

Section ValidationBranch.

Context `{P : Platform}.

Lemma send_validation_failed (env : Env) (body : gmap jsstring jsstring)
    (w : World) :
  validateEnrollmentData (t_validate env) (sanitize_str <$> body) <> [] ->
  send env body w
  = (validation_failed
       (validateEnrollmentData (t_validate env) (sanitize_str <$> body)),
     say LogReceived w).
Proof.
  intros Hne. unfold send.
  destruct (validateEnrollmentData (t_validate env) (sanitize_str <$> body));
    [congruence | reflexivity].
Qed.



(** C2: when the validator reports an error the handler answers 400 with
    the collected list and leaves the store as it was. *)
Theorem validation_failure_writes_nothing (env : Env)
    (body : gmap jsstring jsstring) (w : World) :
  let errors := validateEnrollmentData (t_validate env) (sanitize_str <$> body) in
  errors <> [] ->
  fst (send env body w) = validation_failed errors
  /\ statusCode (fst (send env body w)) = 400
  /\ store (snd (send env body w)) = store w
  /\ snd (send env body w) = say LogReceived w.
Proof.
  intros errors Hne. rewrite (send_validation_failed env body w Hne).
  repeat split.
Qed.

End ValidationBranch.

(** ** The age rule *)

Section AgeRule.

Context `{P : Platform}.

Lemma age_out_of_bounds_spec (a : Z) :
  age_out_of_bounds (Some a) = true <-> (a < 16 \/ 100 < a)%Z.
Proof.
  simpl. rewrite orb_true_iff, !Z.ltb_lt. tauto.
Qed.

(** C6: with a date of birth that parses, the age is the floor of the
    elapsed time over 365.25 days, and the age message is emitted exactly
    when that age is below 16 or above 100: 15 and 101 are refused, 16 and
    100 are accepted. The validator of the schema draws the same line. *)
Theorem age_bound_exact (now : Z) (data : gmap jsstring jsstring)
    (dob : jsstring) (birth : Z) :
  data !! u "dateOfBirth" = Some dob ->
  dob <> [] ->
  Date_parse dob = Some birth ->
  let age := ((now - birth) / (36525 * 24 * 60 * 60 * 10))%Z in
  age_at now (Date_parse dob) = Some age
  /\ (In age_message (validateEnrollmentData now data)
      <-> (age < 16 \/ 100 < age)%Z)
  /\ ((age = 15 \/ age = 101)%Z -> In age_message (validateEnrollmentData now data))
  /\ ((age = 16 \/ age = 100)%Z -> ~ In age_message (validateEnrollmentData now data))
  /\ (schema_age_ok now birth = true <-> (16 <= age <= 100)%Z).
Proof.
  intros Hd Hne Hp age.
  assert (Hage : age_at now (Date_parse dob) = Some age).
  { rewrite Hp. reflexivity. }
  assert (Hiff : In age_message (validateEnrollmentData now data)
                 <-> (age < 16 \/ 100 < age)%Z).
  { rewrite age_message_in, Hd. simpl. rewrite Hage.
    rewrite age_out_of_bounds_spec.
    destruct dob; [congruence|]. simpl. tauto. }
  split; [exact Hage|]. split; [exact Hiff|].
  split; [intros H; apply Hiff; lia|].
  split; [intros H Hin; apply Hiff in Hin; lia|].
  unfold schema_age_ok. fold msPerYear. fold age.
  rewrite andb_true_iff, !Z.leb_le. tauto.
Qed.

(** C9: a date of birth that is present but does not parse gives the age
    NaN, both comparisons are false, and the validator emits no age
    message: its result is what the other four rules found. *)
Theorem unparseable_birth_date_passes_age_rule (now : Z)
    (data : gmap jsstring jsstring) (dob : jsstring) :
  data !! u "dateOfBirth" = Some dob ->
  trim dob <> [] ->
  Date_parse dob = None ->
  age_at now (Date_parse dob) = None
  /\ age_out_of_bounds (age_at now (Date_parse dob)) = false
  /\ ~ In age_message (validateEnrollmentData now data)
  /\ ~ In (u "dateOfBirth is required") (validateEnrollmentData now data)
  /\ validateEnrollmentData now data
     = required_errors data ++ email_errors data ++ phone_errors data
       ++ emergency_phone_errors data.
Proof.
  intros Hd Hne Hp.
  assert (Hage : age_errors now data = []).
  { unfold age_errors. rewrite Hd. simpl. rewrite Hp. simpl.
    now rewrite andb_false_r. }
  split; [now rewrite Hp|]. split; [now rewrite Hp|].
  split.
  { rewrite age_message_in, Hd. simpl. rewrite Hp. simpl. intros [_ H].
    discriminate. }
  split.
  { rewrite validate_collects, required_errors_spec.
    unfold email_errors, phone_errors, emergency_phone_errors.
    rewrite Hage, !push_if_in.
    intros [(f & _ & Hmiss & Hm)|[[_ H]|[[_ H]|[[_ H]|[]]]]]; try discriminate.
    change (u "dateOfBirth" ++ u " is required" = f ++ u " is required") in Hm.
    apply app_inv_tail in Hm. subst f.
    apply is_missing_spec in Hmiss. rewrite Hd in Hmiss. simpl in Hmiss.
    contradiction. }
  unfold validateEnrollmentData. rewrite Hage. now rewrite !app_nil_r.
Qed.

End AgeRule.

(** ** The Record Store *)

Section RecordStore.

Context `{P : Platform}.

(** [save] either appends the new document or leaves the documents as
    they were. *)
Lemma save_outcome (env : Env) (d : StudentData.t) (docs : list Student.t) :
  (exists doc, save env d docs = (Saved doc, docs ++ [doc])
               /\ schema_errors (t_schema env) (castStudent d) = []
               /\ materialize env (castStudent d) = Some doc
               /\ storage_fault env = false
               /\ unique_violation doc docs = None)
  \/ (exists failure, save env d docs = (failure, docs)
                      /\ forall doc, failure <> Saved doc).
Proof.
  unfold save.
  destruct (schema_errors (t_schema env) (castStudent d)) as [|m ms] eqn:Hs.
  - destruct (materialize env (castStudent d)) as [doc|] eqn:Hm.
    + destruct (storage_fault env) eqn:Hf.
      * right. eexists. split; [reflexivity | discriminate].
      * destruct (unique_violation doc docs) as [key|] eqn:Hu.
        -- right. eexists. split; [reflexivity | discriminate].
        -- left. exists doc. auto.
    + right. eexists. split; [reflexivity | discriminate].
  - right. eexists. split; [reflexivity | discriminate].
Qed.


Lemma unique_violation_none (doc : Student.t) (docs : list Student.t) :
  unique_violation doc docs = None ->
  forall r, In r docs ->
    Student._id r <> Student._id doc
    /\ Student.email r <> Student.email doc
    /\ Student.idnumber r <> Student.idnumber doc.
Proof.
  unfold unique_violation. intros Hu r Hr.
  destruct (existsb _ docs) eqn:E1 in Hu; [discriminate|].
  destruct (existsb _ docs) eqn:E2 in Hu; [discriminate|].
  destruct (existsb _ docs) eqn:E3 in Hu; [discriminate|].
  rewrite <- not_true_iff_false, existsb_exists in E1, E2, E3.
  repeat split; intros Heq; [apply E1 | apply E2 | apply E3];
    exists r; (split; [exact Hr|]); now apply bool_decide_eq_true.
Qed.


End RecordStore.

(** ** The intake pipeline *)

Section Intake.

Context `{P : Platform}.

(** After a clean validation every required field is there and not
    blank. *)
Lemma validated_present (now : Z) (data : gmap jsstring jsstring)
    (field : jsstring) :
  validateEnrollmentData now data = [] ->
  In field requiredFields ->
  exists s, data !! field = Some s /\ trim s <> [].
Proof.
  intros Hv Hf.
  destruct (is_missing data field) eqn:Hm.
  - exfalso.
    assert (Hin : In (required_message field) (validateEnrollmentData now data)).
    { apply validate_collects. left. apply required_errors_spec.
      exists field. auto. }
    rewrite Hv in Hin. destruct Hin.
  - destruct (data !! field) as [s|] eqn:Hd.
    + exists s. split; [reflexivity|]. intros Ht.
      assert (is_missing data field = true); [|congruence].
      apply is_missing_spec. now rewrite Hd.
    + assert (is_missing data field = true); [|congruence].
      apply is_missing_spec. now rewrite Hd.
Qed.

(** The paths through the handler. *)
Lemma send_cases (env : Env) (body : gmap jsstring jsstring) (w : World) :
  let data := sanitize_str <$> body in
  let errors := validateEnrollmentData (t_validate env) data in
  let w1 := say LogReceived w in
  let docs := store w ++ interleaved env in
  (errors <> [] /\ send env body w = (validation_failed errors, w1))
  \/ (errors = [] /\ data !! u "email" = None
      /\ send env body w = (internal_error, say LogSubmissionError w1))
  \/ (exists email r0,
        errors = [] /\ data !! u "email" = Some email
        /\ findOne (duplicate_filter (toLowerCase email) (data !! u "idnumber"))
                   (store w) = Some r0
        /\ send env body w = (duplicate_entry (duplicateField r0 email), w1))
  \/ (exists email doc,
        errors = [] /\ data !! u "email" = Some email
        /\ findOne (duplicate_filter (toLowerCase email) (data !! u "idnumber"))
                   (store w) = None
        /\ save env (studentData env email data) docs = (Saved doc, docs ++ [doc])
        /\ send env body w
           = (created doc,
              notify env (say (LogSaved (Student._id doc))
                              (with_store (docs ++ [doc]) w1))))
  \/ (exists email failure,
        errors = [] /\ data !! u "email" = Some email
        /\ findOne (duplicate_filter (toLowerCase email) (data !! u "idnumber"))
                   (store w) = None
        /\ save env (studentData env email data) docs = (failure, docs)
        /\ (forall doc, failure <> Saved doc)
        /\ send env body w
           = (on_save_error failure,
              say LogSubmissionError (with_store docs w1))).
Proof.
  intros data errors w1 docs. unfold send. fold data. fold errors. fold w1.
  destruct errors as [|m ms] eqn:He.
  2:{ left. split; [discriminate | reflexivity]. }
  right. simpl.
  destruct (data !! u "email") as [email|] eqn:Hemail.
  2:{ left. auto. }
  right.
  change (store w1) with (store w).
  destruct (findOne _ (store w)) as [r0|] eqn:Hfind.
  { left. exists email, r0. auto. }
  right. fold docs.
  destruct (save_outcome env (studentData env email data) docs)
    as [(doc & Hs & _)|(failure & Hs & Hne)].
  - left. exists email, doc. rewrite Hs. auto.
  - right. exists email, failure. rewrite Hs.
    repeat split; try assumption; try reflexivity.
    destruct failure; try reflexivity. exfalso. eapply Hne. reflexivity.
Qed.


(** The outcome of the notification is read only by [notify]. *)
Lemma send_with_mail (m : Mail) (env : Env) (body : gmap jsstring jsstring)
    (w : World) :
  fst (send (with_mail m env) body w) = fst (send env body w)
  /\ store (snd (send (with_mail m env) body w)) = store (snd (send env body w)).
Proof.
  unfold send.
  change (t_validate (with_mail m env)) with (t_validate env).
  change (interleaved (with_mail m env)) with (interleaved env).
  destruct (0 <? length _)%nat; [split; reflexivity|].
  destruct (_ !! u "email") as [email|]; [|split; reflexivity].
  destruct (findOne _ _); [split; reflexivity|].
  change (save (with_mail m env)) with (save env).
  change (studentData (with_mail m env)) with (studentData env).
  destruct (save env _ _) as [[doc|key|ms|] docs]; try (split; reflexivity).
  unfold notify. split; [reflexivity|].
  destruct (emails_delivered _), (emails_delivered _); reflexivity.
Qed.

Lemma notify_store (env : Env) (w : World) : store (notify env w) = store w.
Proof. unfold notify. destruct (emails_delivered _); reflexivity. Qed.

(** A store that grew by one document went through the write. *)
Lemma send_persisted (env : Env) (body : gmap jsstring jsstring) (w : World)
    (doc : Student.t) :
  store (snd (send env body w)) = store w ++ interleaved env ++ [doc] ->
  exists email,
    validateEnrollmentData (t_validate env) (sanitize_str <$> body) = []
    /\ (sanitize_str <$> body) !! u "email" = Some email
    /\ save env (studentData env email (sanitize_str <$> body))
             (store w ++ interleaved env)
       = (Saved doc, (store w ++ interleaved env) ++ [doc])
    /\ send env body w
       = (created doc,
          notify env (say (LogSaved (Student._id doc))
                          (with_store ((store w ++ interleaved env) ++ [doc])
                                      (say LogReceived w)))).
Proof.
  intros Hstore.
  pose proof (send_cases env body w) as Hcases. cbv zeta in Hcases.
  assert (Hlen : forall l : list Student.t, l <> l ++ interleaved env ++ [doc]).
  { intros l E. apply (f_equal (@length _)) in E.
    rewrite !length_app in E. simpl in E. lia. }
  destruct Hcases
    as [[_ Hs]|[(_ & _ & Hs)|[(e & r & _ & _ & _ & Hs)
       |[(e & d & Hv & He & _ & Hsave & Hs)|(e & f & _ & _ & _ & _ & _ & Hs)]]]];
    rewrite Hs in Hstore; simpl in Hstore.
  - exfalso. eapply Hlen, Hstore.
  - exfalso. eapply Hlen, Hstore.
  - exfalso. eapply Hlen, Hstore.
  - rewrite notify_store in Hstore. simpl in Hstore.
    rewrite <- app_assoc in Hstore.
    apply app_inv_head in Hstore. apply app_inv_head in Hstore.
    injection Hstore as ->. exists e. auto.
  - exfalso. rewrite <- (app_nil_r (store w ++ interleaved env)) in Hstore.
    rewrite <- !app_assoc in Hstore.
    apply app_inv_head in Hstore. apply app_inv_head in Hstore. discriminate.
Qed.

(** C5: once the document is written the answer is 201 with the
    identity, the application identifier, the stored email, the course,
    the status and the creation time of that document, for every outcome
    of the notification; a failed notification is logged and nothing
    else. *)
Theorem notification_never_changes_outcome (env : Env)
    (body : gmap jsstring jsstring) (w : World) (doc : Student.t) :
  store (snd (send env body w)) = store w ++ interleaved env ++ [doc] ->
  forall m : Mail,
    let out := send (with_mail m env) body w in
    fst out = created doc
    /\ statusCode (fst out) = 201
    /\ json (fst out)
       = CreatedBody
           (u "Enrollment application submitted successfully! Please check your email for confirmation details.")
           {| Receipt.studentId := Student._id doc;
              Receipt.applicationId :=
                toUpperCase (slice_last 8 (Student._id doc));
              Receipt.email := Student.email doc;
              Receipt.course := Student.course doc;
              Receipt.status := Student.status doc;
              Receipt.submissionTime := Student.createdAt doc |}
    /\ store (snd out) = store w ++ interleaved env ++ [doc]
    /\ (emails_delivered m = false ->
        console (snd out)
        = console w ++ [LogReceived; LogSaved (Student._id doc); LogEmailFailed])
    /\ (emails_delivered m = true ->
        console (snd out)
        = console w ++ [LogReceived; LogSaved (Student._id doc); LogEmailsSent]).
Proof.
  intros Hstore m out.
  destruct (send_with_mail m env body w) as [Hfst Hst].
  destruct (send_persisted env body w doc Hstore) as (email & _ & _ & _ & Hs).
  assert (Hstore' : store (snd out) = store w ++ interleaved (with_mail m env) ++ [doc]).
  { unfold out. rewrite Hst. exact Hstore. }
  destruct (send_persisted (with_mail m env) body w doc Hstore')
    as (email' & _ & _ & _ & Hs').
  fold out in Hs'. rewrite Hs'. simpl.
  split; [reflexivity|]. split; [reflexivity|]. split; [reflexivity|].
  split; [now rewrite notify_store, <- app_assoc|].
  unfold notify. simpl.
  split; intros ->; simpl; now rewrite <- !app_assoc.
Qed.



(** What the store does with the date the validator let through: the
    cast of the invalid date fails, and the handler answers 400 with the
    message of that cast first. *)
Lemma unparseable_rejected_at_save (env : Env)
    (body : gmap jsstring jsstring) (w : World) (email dob : jsstring) :
  validateEnrollmentData (t_validate env) (sanitize_str <$> body) = [] ->
  (sanitize_str <$> body) !! u "email" = Some email ->
  (sanitize_str <$> body) !! u "dateOfBirth" = Some dob ->
  Date_parse dob = None ->
  findOne (duplicate_filter (toLowerCase email)
                            ((sanitize_str <$> body) !! u "idnumber"))
          (store w) = None ->
  exists others,
    fst (send env body w) = validation_failed (castDateMessage :: others)
    /\ store (snd (send env body w)) = store w ++ interleaved env.
Proof.
  intros Hv He Hd Hp Hfind.
  unfold send. rewrite Hv. simpl. rewrite He.
  change (store (say LogReceived w)) with (store w). rewrite Hfind.
  unfold save, schema_errors, cast_errors, castStudent, studentData. simpl.
  rewrite Hd. simpl. rewrite Hp. simpl.
  eexists. split; reflexivity.
Qed.

(** The strings of a materialized document are the trimmed strings of the
    object it was built from. *)
Lemma materialize_fields (env : Env) (email : jsstring)
    (data : gmap jsstring jsstring) (doc : Student.t) :
  materialize env (castStudent (studentData env email data)) = Some doc ->
  Student._id doc = new_id env
  /\ Student.email doc = trim (toLowerCase (toLowerCase email))
  /\ data !! u "dateOfBirth" ≫= Date_parse = Some (Student.dateOfBirth doc)
  /\ Student.status doc = u "pending"
  /\ Student.createdAt doc = t_created env
  /\ forall field proj, In (field, proj) string_fields ->
       exists s, data !! field = Some s /\ proj doc = trim s.
Proof.
  unfold materialize, castStudent, studentData, set_string, set_email. simpl.
  destruct (data !! u "firstName") as [s1|] eqn:Es1; [|discriminate].
  destruct (data !! u "lastName") as [s2|] eqn:Es2; [|discriminate].
  destruct (data !! u "phone") as [s3|] eqn:Es3; [|discriminate].
  destruct (data !! u "idnumber") as [s4|] eqn:Es4; [|discriminate].
  destruct (data !! u "dateOfBirth" ≫= Date_parse) as [t|]; [|discriminate].
  destruct (data !! u "course") as [s5|] eqn:Es5; [|discriminate].
  destruct (data !! u "address") as [s6|] eqn:Es6; [|discriminate].
  destruct (data !! u "city") as [s7|] eqn:Es7; [|discriminate].
  destruct (data !! u "zipCode") as [s8|] eqn:Es8; [|discriminate].
  destruct (data !! u "emergencyContact") as [s9|] eqn:Es9; [|discriminate].
  destruct (data !! u "emergencyPhone") as [s10|] eqn:Es10; [|discriminate].
  simpl. intros H. injection H as <-. simpl.
  repeat (split; [reflexivity|]).
  intros field proj Hin. unfold string_fields in Hin. simpl in Hin.
  repeat (destruct Hin as [Heq|Hin];
          [injection Heq as <- <-; eexists; split; [eassumption | reflexivity]|]).
  destruct Hin.
Qed.

End Intake.

(** ** Round trip through the store *)

Section RoundTrip.

Context `{P : Platform} {L : PlatformLaws P}.

(** Only the path through a successful write answers 201. *)
Lemma send_created (env : Env) (body : gmap jsstring jsstring) (w : World) :
  statusCode (fst (send env body w)) = 201 ->
  exists email doc,
    (sanitize_str <$> body) !! u "email" = Some email
    /\ save env (studentData env email (sanitize_str <$> body))
            (store w ++ interleaved env)
       = (Saved doc, (store w ++ interleaved env) ++ [doc])
    /\ fst (send env body w) = created doc
    /\ store (snd (send env body w)) = (store w ++ interleaved env) ++ [doc].
Proof.
  intros Hcode.
  pose proof (send_cases env body w) as Hcases. cbv zeta in Hcases.
  destruct Hcases
    as [[_ Hs]|[(_ & _ & Hs)|[(e & r & _ & _ & _ & Hs)
       |[(e & d & Hv & He & _ & Hsave & Hs)|(e & f & _ & _ & _ & _ & _ & Hs)]]]];
    rewrite Hs in Hcode; simpl in Hcode; try discriminate.
  - exists e, d. rewrite Hs. simpl. rewrite notify_store. auto.
  - destruct f; discriminate.
Qed.

(** Answering 201 and appending a document are the same event. *)
Lemma created_iff_persisted (env : Env) (body : gmap jsstring jsstring)
    (w : World) :
  statusCode (fst (send env body w)) = 201
  <-> exists doc, store (snd (send env body w))
                  = store w ++ interleaved env ++ [doc].
Proof.
  split.
  - intros H. destruct (send_created env body w H) as (_ & doc & _ & _ & _ & Hs).
    exists doc. now rewrite Hs, <- app_assoc.
  - intros (doc & H).
    destruct (send_persisted env body w doc H) as (_ & _ & _ & _ & Hs).
    now rewrite Hs.
Qed.



End RoundTrip.

(** ** The invariant of the store *)

Section StoreInvariant.

Context `{P : Platform} {L : PlatformLaws P}.

Lemma materialize_stored_form (env : Env) (email : jsstring)
    (data : gmap jsstring jsstring) (doc : Student.t) :
  materialize env (castStudent (studentData env email data)) = Some doc ->
  stored_form doc.
Proof.
  intros Hm.
  destruct (materialize_fields env email data doc Hm)
    as (_ & Hemail & _ & _ & _ & Hfields).
  destruct (Hfields (u "idnumber") Student.idnumber) as (s & _ & Hs).
  { unfold string_fields. simpl. auto. }
  split.
  - rewrite Hemail. rewrite toLowerCase_trim, !toLowerCase_idem.
    apply trim_idem.
  - rewrite Hs. apply trim_idem.
Qed.

(** X18: the handler keeps the store in stored form: if every document of
    the store and every document written meanwhile has a trimmed id number
    and an email that lower-casing and trimming leave unchanged, so has
    every document of the store the handler leaves. This is the invariant
    the duplicate check relies on. *)
Lemma send_keeps_stored_form (env : Env) (body : gmap jsstring jsstring)
    (w : World) :
  Forall stored_form (store w) ->
  Forall stored_form (interleaved env) ->
  Forall stored_form (store (snd (send env body w))).
Proof.
  intros Hw Hi.
  pose proof (send_cases env body w) as Hcases. cbv zeta in Hcases.
  destruct Hcases
    as [[_ Hs]|[(_ & _ & Hs)|[(e & r & _ & _ & _ & Hs)
       |[(e & d & _ & _ & _ & Hsave & Hs)|(e & f & _ & _ & _ & _ & _ & Hs)]]]];
    rewrite Hs; simpl; try assumption.
  - rewrite notify_store. simpl.
    destruct (save_outcome env (studentData env e (sanitize_str <$> body))
                           (store w ++ interleaved env))
      as [(doc' & Hs' & _ & Hm & _)|(f & Hs' & Hne)].
    + rewrite Hsave in Hs'. injection Hs' as <-.
      repeat apply Forall_app_2; try assumption.
      constructor; [|constructor]. eapply materialize_stored_form, Hm.
    + rewrite Hsave in Hs'. injection Hs' as <- _.
      exfalso. eapply Hne. reflexivity.
  - now apply Forall_app_2.
Qed.

End StoreInvariant.

(** ** Routing *)

Section Routing.

Context `{P : Platform}.

Lemma serve_send (env : Env) (body : gmap jsstring jsstring) (w : World) :
  within_general_limit env = true ->
  within_form_limit env = true ->
  serve env (request POST (u "/send") body) w
  = (Reply (fst (send env body w)), snd (send env body w)).
Proof.
  intros Hg Hf. unfold serve, app, request. simpl.
  unfold limiter, pass_through. rewrite Hg. simpl.
  unfold formLimiter. rewrite Hf. unfold send_handler. simpl.
  now destruct (send env body w).
Qed.

(** A GET of one student reaches [getStudent] with the last segment of
    the path. *)
Lemma serve_student (env : Env) (id : jsstring)
    (body : gmap jsstring jsstring) (w : World) :
  within_general_limit env = true ->
  id <> [] ->
  existsb (N.eqb 47) id = false ->
  serve env (request GET (u "/api/students/" ++ id) body) w
  = (Reply (getStudent id w), w).
Proof.
  intros Hg Hne Hslash.
  assert (Hid : student_id_of (u "/api/students/" ++ id) = Some id).
  { unfold student_id_of.
    rewrite take_app_length, bool_decide_eq_true_2 by reflexivity.
    rewrite drop_app_length, bool_decide_eq_false_2 by exact Hne.
    now rewrite Hslash. }
  remember (u "/api/students/" ++ id) as path eqn:Hpath.
  unfold serve, app, request. simpl.
  unfold limiter, pass_through. rewrite Hg. simpl.
  rewrite Hid. rewrite bool_decide_eq_true_2 by eauto. simpl.
  unfold student_handler. simpl. now rewrite Hid.
Qed.

(** C8 fails on the code: within the rate limits, a POST to [/api/route]
    runs the rewrite of the url, the limiter and then the empty handler,
    which neither answers nor calls [next()]; the request stays without a
    response and the store is untouched, whatever the body, while the same
    body posted to [/send] is answered by the intake handler. *)
Theorem api_route_never_answers (env : Env) (body : gmap jsstring jsstring)
    (w : World) :
  within_general_limit env = true ->
  within_form_limit env = true ->
  serve env (request POST (u "/api/route") body) w = (Pending, w)
  /\ serve env (request POST (u "/send") body) w
     = (Reply (fst (send env body w)), snd (send env body w))
  /\ serve env (request POST (u "/api/route") body) w
     <> serve env (request POST (u "/send") body) w.
Proof.
  intros Hg Hf.
  assert (Hroute : serve env (request POST (u "/api/route") body) w = (Pending, w)).
  { unfold serve, app, request. simpl.
    unfold limiter, pass_through. rewrite Hg. simpl.
    unfold redirect_to_send, formLimiter. rewrite Hf. reflexivity. }
  split; [exact Hroute|]. split; [now apply serve_send|].
  rewrite Hroute, serve_send by assumption. discriminate.
Qed.

End Routing.

(** ** The model run on sample requests *)

Section Samples.

Import Demo.

Lemma lower_unit_idem (c : N) : lower_unit (lower_unit c) = lower_unit c.
Proof.
  unfold lower_unit.
  destruct ((65 <=? c) && (c <=? 90)) eqn:E; [|now rewrite E].
  apply andb_prop in E as [E1 E2]. apply N.leb_le in E1, E2.
  replace ((65 <=? c + 32) && (c + 32 <=? 90)) with false; [reflexivity|].
  symmetry. apply andb_false_iff. right. apply N.leb_gt. lia.
Qed.

Lemma lower_unit_ws (c : N) : is_ws (lower_unit c) = is_ws c.
Proof.
  unfold lower_unit.
  destruct ((65 <=? c) && (c <=? 90)) eqn:E; [|reflexivity].
  apply andb_prop in E as [E1 E2]. apply N.leb_le in E1, E2.
  assert (Hws : forall d, 65 <= d <= 122 -> is_ws d = false).
  { intros d Hd. unfold is_ws.
    repeat match goal with
           | |- (_ || _) = false => apply orb_false_intro
           | |- (_ && _) = false => apply andb_false_iff; left
           | |- (_ =? _) = false => apply N.eqb_neq; lia
           | |- (_ <=? _) = false => apply N.leb_gt; lia
           end. }
  rewrite !Hws by lia. reflexivity.
Qed.

Lemma lower_trimStart (s : jsstring) : lower (trimStart s) = trimStart (lower s).
Proof.
  induction s as [|c r IH]; simpl; [reflexivity|].
  rewrite lower_unit_ws. destruct (is_ws c); [exact IH | reflexivity].
Qed.

Lemma lower_trim (s : jsstring) : lower (trim s) = trim (lower s).
Proof.
  unfold trim, trimEnd, lower.
  rewrite map_rev. fold (lower (trimStart (rev (trimStart s)))).
  rewrite lower_trimStart. unfold lower at 1. rewrite map_rev.
  fold (lower (trimStart s)). now rewrite lower_trimStart.
Qed.

Lemma laws : PlatformLaws platform.
Proof.
  split; simpl.
  - intros s. unfold lower. rewrite map_map.
    apply map_ext. intros c. apply lower_unit_idem.
  - apply lower_trim.
Qed.

(** The scenario of the spec: the submission is stored with the lower-cased
    email and the status pending, and fetched back in normal form. *)
Example ann_is_enrolled :
  send env0 ann world0
  = (created ann_doc,
     {| store := [ann_doc];
        console := [LogReceived; LogSaved (u "65a1b2c3d4e5f60718293a4b");
                    LogEmailsSent] |})
  /\ getStudent (u "65a1b2c3d4e5f60718293a4b") {| store := [ann_doc]; console := [] |}
     = {| statusCode := 200; success := true; json := StudentBody ann_doc |}.
Proof. split; vm_compute; reflexivity. Qed.

(** With the address of the spec's scenario, nine characters long, the
    submission passes the validator and is refused by the schema, whose
    address path asks for ten. *)
Example short_address_is_refused :
  fst (send env0 (<[u "address" := u "1 Main St"]> ann) world0)
  = validation_failed [u "Please provide a complete address"].
Proof. vm_compute. reflexivity. Qed.

(** The same submission a second time meets the stored email. *)
Example ann_twice :
  fst (send env0 ann {| store := [ann_doc]; console := [] |})
  = duplicate_entry (u "email").
Proof. vm_compute. reflexivity. Qed.

(** A date of birth that does not parse passes the validator and is
    refused by the schema when the document is saved. *)
Example unparseable_date_reaches_the_store :
  validateEnrollmentData new_year_2026 (sanitize_str <$> dreamer) = []
  /\ fst (send env0 dreamer world0) = validation_failed [cast_message].
Proof. split; vm_compute; reflexivity. Qed.


(** Both missing fields of [two_missing] are reported, in the order of
    [requiredFields]. *)
Example two_missing_reported :
  fst (send env0 two_missing world0)
  = validation_failed [u "lastName is required"; u "city is required"].
Proof. vm_compute. reflexivity. Qed.



Lemma validation_failure_writes_nothing_witness :
  validateEnrollmentData (t_validate env0) (sanitize_str <$> two_missing) <> []
  /\ store (snd (send env0 two_missing world0)) = store world0.
Proof.
  assert (H : validateEnrollmentData (t_validate env0)
                (sanitize_str <$> two_missing) <> [])
    by (vm_compute; discriminate).
  destruct (validation_failure_writes_nothing env0 two_missing world0 H)
    as (_ & _ & A & _).
  exact (conj H A).
Defined.



Lemma notification_never_changes_outcome_witness :
  store (snd (send env0 ann world0))
  = store world0 ++ interleaved env0 ++ [ann_doc]
  /\ fst (send (with_mail none_sent env0) ann world0) = created ann_doc.
Proof.
  assert (H : store (snd (send env0 ann world0))
              = store world0 ++ interleaved env0 ++ [ann_doc])
    by (vm_compute; reflexivity).
  destruct (notification_never_changes_outcome env0 ann world0 ann_doc H none_sent)
    as (A & _).
  exact (conj H A).
Defined.

Lemma age_bound_exact_witness :
  (sanitize_str <$> teen) !! u "dateOfBirth" = Some (u "2010-06-15")
  /\ Date_parse (u "2010-06-15") = Some 1276560000000%Z
  /\ ((new_year_2026 - 1276560000000) / (36525 * 24 * 60 * 60 * 10) = 15)%Z
  /\ In age_message
        (validateEnrollmentData new_year_2026 (sanitize_str <$> teen)).
Proof.
  assert (H1 : (sanitize_str <$> teen) !! u "dateOfBirth" = Some (u "2010-06-15"))
    by (vm_compute; reflexivity).
  assert (H2 : Date_parse (u "2010-06-15") = Some 1276560000000%Z)
    by (vm_compute; reflexivity).
  assert (H3 : ((new_year_2026 - 1276560000000) / (36525 * 24 * 60 * 60 * 10)
                = 15)%Z) by reflexivity.
  destruct (age_bound_exact new_year_2026 (sanitize_str <$> teen)
              (u "2010-06-15") 1276560000000%Z H1
              ltac:(discriminate) H2) as (_ & _ & A & _).
  exact (conj H1 (conj H2 (conj H3 (A (or_introl H3))))).
Defined.

Lemma unparseable_birth_date_passes_age_rule_witness :
  (sanitize_str <$> dreamer) !! u "dateOfBirth" = Some (u "soon")
  /\ Date_parse (u "soon") = None
  /\ ~ In age_message
         (validateEnrollmentData new_year_2026 (sanitize_str <$> dreamer)).
Proof.
  assert (H1 : (sanitize_str <$> dreamer) !! u "dateOfBirth" = Some (u "soon"))
    by (vm_compute; reflexivity).
  assert (H2 : Date_parse (u "soon") = None) by reflexivity.
  destruct (unparseable_birth_date_passes_age_rule new_year_2026
              (sanitize_str <$> dreamer) (u "soon") H1
              ltac:(vm_compute; discriminate) H2) as (_ & _ & A & _).
  exact (conj H1 (conj H2 A)).
Defined.


Lemma api_route_never_answers_witness :
  within_general_limit env0 = true
  /\ within_form_limit env0 = true
  /\ serve env0 (request POST (u "/api/route") ann) world0 = (Pending, world0)
  /\ fst (serve env0 (request POST (u "/send") ann) world0)
     = Reply (created ann_doc).
Proof.
  destruct (api_route_never_answers env0 ann world0 eq_refl eq_refl)
    as (A & B & _).
  split; [reflexivity|]. split; [reflexivity|]. split; [exact A|].
  rewrite B. vm_compute. reflexivity.
Defined.

End Samples.

(** * Further properties of the code *)

(** ** The sanitizer and the phone pattern *)

Section MoreStrings.

Lemma strip_markup_sublist (s : jsstring) : sublist (strip_markup s) s.
Proof.
  induction s as [|c s IH]; simpl; [constructor|].
  destruct (is_markup c); simpl; now constructor.
Qed.

Lemma trim_sublist (s : jsstring) : sublist (trim s) s.
Proof.
  destruct (trim_split s) as (w1 & w2 & _ & _ & Hs).
  rewrite Hs at 2. apply sublist_inserts_l, sublist_inserts_r. reflexivity.
Qed.

(** X1: the sanitizer only removes characters, so its output is the input
    with some characters left out; and it returns a string unchanged
    exactly when the string has no white space at either end and none of
    the four characters. *)
Theorem sanitizeInput_only_removes (s : jsstring) :
  sublist (sanitize_str s) s
  /\ (length (sanitize_str s) <= length s)%nat
  /\ (sanitizeInput (VStr s) = VStr s <-> trimmed s /\ has_markup s = false).
Proof.
  assert (Hsub : sublist (sanitize_str s) s).
  { rewrite sanitize_str_unfold. etransitivity;
      [apply strip_markup_sublist | apply trim_sublist]. }
  split; [exact Hsub|]. split; [now apply sublist_length|].
  rewrite sanitizeInput_string. split.
  - intros H. injection H as H.
    assert (Hclean : has_markup s = false).
    { rewrite <- H. apply sanitize_str_clean. }
    split; [|exact Hclean]. unfold trimmed.
    rewrite <- (sanitize_str_plain s Hclean). exact H.
  - intros [Ht Hc]. f_equal. rewrite (sanitize_str_plain s Hc). exact Ht.
Qed.

Lemma strip_ws_app (a b : jsstring) :
  strip_ws (a ++ b) = strip_ws a ++ strip_ws b.
Proof. unfold strip_ws. apply List.filter_app. Qed.

Lemma strip_ws_blank (w : jsstring) : forallb is_ws w = true -> strip_ws w = [].
Proof.
  induction w as [|c w IH]; simpl; [reflexivity|].
  intros H. apply andb_prop in H as [Hc Hw]. rewrite Hc. simpl. auto.
Qed.

Lemma strip_ws_idem (s : jsstring) : strip_ws (strip_ws s) = strip_ws s.
Proof.
  induction s as [|c s IH]; simpl; [reflexivity|].
  destruct (is_ws c) eqn:E; simpl; [exact IH|]. rewrite E. simpl. now rewrite IH.
Qed.

Lemma strip_ws_trim (s : jsstring) : strip_ws (trim s) = strip_ws s.
Proof.
  destruct (trim_split s) as (w1 & w2 & H1 & H2 & Hs).
  rewrite Hs at 2. rewrite !strip_ws_app.
  rewrite (strip_ws_blank w1 H1), (strip_ws_blank w2 H2).
  now rewrite app_nil_r.
Qed.

Lemma strip_ws_no_ws (s : jsstring) : forallb (fun c => negb (is_ws c)) (strip_ws s) = true.
Proof.
  induction s as [|c s IH]; simpl; [reflexivity|].
  destruct (is_ws c) eqn:E; simpl; [exact IH|]. now rewrite E.
Qed.

Lemma phone_char_split (c : N) : is_phone_char c = is_ws c || is_dial_char c.
Proof.
  unfold is_phone_char, is_dial_char.
  destruct ((48 <=? c) && (c <=? 57)), (is_ws c), (c =? 45), (c =? 43),
    (c =? 40), (c =? 41); reflexivity.
Qed.

Lemma phone_test_trim (s : jsstring) : phone_test (trim s) = phone_test s.
Proof. unfold phone_test. now rewrite strip_ws_trim. Qed.

(** X2: the phone test looks only at the characters that are not white
    space: it accepts exactly when there are at least ten of them and each
    is a digit, a hyphen, a plus or a parenthesis. White space anywhere in
    the number, also around it, changes nothing. *)
Theorem phone_test_ignores_white_space (s : jsstring) :
  (phone_test s = true
   <-> (10 <= length (strip_ws s))%nat
       /\ forallb is_dial_char (strip_ws s) = true)
  /\ phone_test (strip_ws s) = phone_test s
  /\ phone_test (trim s) = phone_test s
  /\ (forall a b w, forallb is_ws w = true ->
        phone_test (a ++ w ++ b) = phone_test (a ++ b)).
Proof.
  assert (Hdial : forall t, forallb is_phone_char (strip_ws t)
                            = forallb is_dial_char (strip_ws t)).
  { intros t. induction t as [|c t IH]; simpl; [reflexivity|].
    destruct (is_ws c) eqn:E; simpl; [exact IH|].
    now rewrite phone_char_split, E, IH. }
  split.
  { unfold phone_test. rewrite andb_true_iff, Nat.leb_le, Hdial. tauto. }
  split; [unfold phone_test; now rewrite strip_ws_idem|].
  split; [apply phone_test_trim|].
  intros a b w Hw. unfold phone_test.
  now rewrite !strip_ws_app, (strip_ws_blank w Hw).
Qed.

End MoreStrings.

(** ** The validator as a whole *)

Section MoreValidator.

Context `{P : Platform}.

Lemma all_messages_distinct : NoDup all_messages.
Proof. apply (bool_decide_unpack _). vm_compute. exact I. Qed.

Lemma push_if_sublist (c : bool) (m : jsstring) : sublist (push_if c m) [m].
Proof. destruct c; simpl; repeat constructor. Qed.

Lemma required_errors_sublist (data : gmap jsstring jsstring) :
  sublist (required_errors data) (map required_message requiredFields).
Proof.
  unfold required_errors.
  induction requiredFields as [|f fs IH]; simpl; [constructor|].
  destruct (is_missing data f); simpl; now constructor.
Qed.

(** X3: the result of the validator is [all_messages] with some messages
    left out: the messages come in one fixed order (the required fields in
    the order of the list, then email, phone, emergency phone, age), none
    appears twice, and there are at most sixteen. *)
Theorem validation_errors_ordered (now : Z) (data : gmap jsstring jsstring) :
  sublist (validateEnrollmentData now data) all_messages
  /\ NoDup (validateEnrollmentData now data)
  /\ (length (validateEnrollmentData now data) <= 16)%nat.
Proof.
  assert (Hsub : sublist (validateEnrollmentData now data) all_messages).
  { unfold validateEnrollmentData, all_messages.
    apply sublist_app; [apply required_errors_sublist|].
    apply (sublist_app _ [email_message] _
             [phone_message; emergency_phone_message; age_message]);
      [apply push_if_sublist|].
    apply (sublist_app _ [phone_message] _
             [emergency_phone_message; age_message]);
      [apply push_if_sublist|].
    apply (sublist_app _ [emergency_phone_message] _ [age_message]);
      apply push_if_sublist. }
  split; [exact Hsub|]. split.
  - eapply sublist_NoDup; [apply all_messages_distinct | exact Hsub].
  - apply sublist_length in Hsub. exact Hsub.
Qed.

Lemma required_message_not_format (field : jsstring) :
  In field requiredFields ->
  required_message field <> email_message
  /\ required_message field <> phone_message
  /\ required_message field <> emergency_phone_message.
Proof.
  intros Hf. unfold requiredFields in Hf. simpl in Hf.
  repeat (destruct Hf as [<-|Hf];
          [repeat split; vm_compute; discriminate|]).
  destruct Hf.
Qed.

(** X4: each format rule speaks for itself: the email message is in the
    result exactly when an email is there, not empty, and refused by
    [isEmail], whatever the other fields hold; likewise for the phone and
    the emergency phone with the phone test. *)
Theorem format_rules_independent (now : Z) (data : gmap jsstring jsstring) :
  (In email_message (validateEnrollmentData now data)
   <-> exists e, data !! u "email" = Some e /\ e <> [] /\ isEmail e = false)
  /\ (In phone_message (validateEnrollmentData now data)
      <-> exists p, data !! u "phone" = Some p /\ p <> []
                    /\ phone_test p = false)
  /\ (In emergency_phone_message (validateEnrollmentData now data)
      <-> exists p, data !! u "emergencyPhone" = Some p /\ p <> []
                    /\ phone_test p = false).
Proof.
  assert (Hrule : forall (key : jsstring) (test : jsstring -> bool),
            (truthy (data !! key) && negb (default false (test <$> data !! key))
             = true)
            <-> exists v, data !! key = Some v /\ v <> [] /\ test v = false).
  { intros key test. destruct (data !! key) as [[|c v]|]; simpl.
    - split; [discriminate|]. intros (v & Hv & Hne & _). congruence.
    - rewrite negb_true_iff. split.
      + intros H. exists (c :: v). repeat split; [discriminate | exact H].
      + intros (v' & Hv & _ & Ht). injection Hv as <-. exact Ht.
    - split; [discriminate|]. intros (v & Hv & _). discriminate. }
  assert (Hreq : forall m, (m = email_message \/ m = phone_message
                            \/ m = emergency_phone_message) ->
            ~ exists f, In f requiredFields /\ is_missing data f = true
                        /\ m = required_message f).
  { intros m Hm (f & Hf & _ & Heq).
    destruct (required_message_not_format f Hf) as (H1 & H2 & H3).
    destruct Hm as [-> | [-> | ->]]; congruence. }
  split; [|split]; rewrite validate_collects, required_errors_spec;
    unfold email_errors, phone_errors, emergency_phone_errors, age_errors;
    rewrite !push_if_in, <- Hrule.
  - split.
    + intros [H|[[Hc _]|[[_ Hm]|[[_ Hm]|[_ Hm]]]]];
        [exfalso; eapply Hreq; [|exact H]; auto | exact Hc | | | ];
        vm_compute in Hm; discriminate Hm.
    + intros H. right. left. auto.
  - split.
    + intros [H|[[_ Hm]|[[Hc _]|[[_ Hm]|[_ Hm]]]]];
        [exfalso; eapply Hreq; [|exact H]; auto | | exact Hc | | ];
        vm_compute in Hm; discriminate Hm.
    + intros H. right. right. left. auto.
  - split.
    + intros [H|[[_ Hm]|[[_ Hm]|[[Hc _]|[_ Hm]]]]];
        [exfalso; eapply Hreq; [|exact H]; auto | | | exact Hc | ];
        vm_compute in Hm; discriminate Hm.
    + intros H. right. right. right. left. auto.
Qed.

End MoreValidator.

(** ** Acceptance by the validator *)

Section Acceptance.

Context `{P : Platform}.

Lemma required_errors_nil (data : gmap jsstring jsstring) :
  required_errors data = [] <->
  forall field, In field requiredFields -> is_missing data field = false.
Proof.
  split.
  - intros H field Hf. destruct (is_missing data field) eqn:E; [|reflexivity].
    assert (Hin : In (required_message field) (required_errors data)).
    { apply required_errors_spec. exists field. auto. }
    rewrite H in Hin. destruct Hin.
  - intros H. destruct (required_errors data) as [|m ms] eqn:E; [reflexivity|].
    assert (Hin : In m (required_errors data)) by (rewrite E; now left).
    apply required_errors_spec in Hin as (f & Hf & Hm & _).
    rewrite (H f Hf) in Hm. discriminate.
Qed.

Lemma push_if_nil (c : bool) (m : jsstring) : push_if c m = [] <-> c = false.
Proof. destruct c; simpl; split; congruence. Qed.

Lemma not_missing (data : gmap jsstring jsstring) (field : jsstring) :
  is_missing data field = false <->
  exists s, data !! field = Some s /\ trim s <> [].
Proof.
  rewrite <- not_true_iff_false, is_missing_spec.
  unfold empty_after_trimming. destruct (data !! field) as [s|]; split.
  - intros H. exists s. auto.
  - intros (s' & Hs & Hne) H. injection Hs as <-. contradiction.
  - intros H. exfalso. now apply H.
  - intros (s & Hs & _). discriminate.
Qed.

(** The floor of the elapsed time over a year lies in 16..100 exactly
    when the birth date lies in a window of 85 years of 365.25 days. *)
Lemma age_window (now birth : Z) :
  (16 <= (now - birth) / msPerYear <= 100)%Z
  <-> (now - 101 * msPerYear < birth <= now - 16 * msPerYear)%Z.
Proof.
  unfold msPerYear.
  pose proof (Z.div_mod (now - birth) 31557600000 ltac:(lia)) as Hdm.
  pose proof (Z.mod_pos_bound (now - birth) 31557600000 ltac:(lia)) as Hb.
  lia.
Qed.

(** What a clean validation means, rule by rule. *)
Lemma accepted_iff (now : Z) (data : gmap jsstring jsstring) :
  validateEnrollmentData now data = [] <->
  (forall field, In field requiredFields ->
     exists s, data !! field = Some s /\ trim s <> [])
  /\ (forall e, data !! u "email" = Some e -> isEmail e = true)
  /\ (forall p, data !! u "phone" = Some p -> phone_test p = true)
  /\ (forall p, data !! u "emergencyPhone" = Some p -> phone_test p = true)
  /\ (forall d birth, data !! u "dateOfBirth" = Some d ->
        Date_parse d = Some birth ->
        (16 <= (now - birth) / msPerYear <= 100)%Z).
Proof.
  assert (Hfmt : forall (key : jsstring) (test : jsstring -> bool),
            In key requiredFields ->
            (forall field, In field requiredFields ->
               exists s, data !! field = Some s /\ trim s <> []) ->
            (truthy (data !! key) && negb (default false (test <$> data !! key))
             = false)
            <-> (forall v, data !! key = Some v -> test v = true)).
  { intros key test Hk Hall. destruct (Hall key Hk) as (v & Hv & Hne).
    rewrite Hv. destruct v as [|c v]; [now destruct Hne|]. simpl.
    rewrite negb_false_iff. split.
    - intros H v' Hv'. injection Hv' as <-. exact H.
    - intros H. now apply H. }
  assert (Hage : (forall field, In field requiredFields ->
                    exists s, data !! field = Some s /\ trim s <> []) ->
            (truthy (data !! u "dateOfBirth")
             && age_out_of_bounds
                  (age_at now (data !! u "dateOfBirth" ≫= Date_parse)) = false)
            <-> (forall d birth, data !! u "dateOfBirth" = Some d ->
                   Date_parse d = Some birth ->
                   (16 <= (now - birth) / msPerYear <= 100)%Z)).
  { intros Hall.
    destruct (Hall (u "dateOfBirth")) as (d & Hd & Hne);
      [unfold requiredFields; simpl; tauto|].
    rewrite Hd. destruct d as [|c d]; [now destruct Hne|]. simpl.
    destruct (Date_parse (c :: d)) as [b|] eqn:Hp; simpl.
    - rewrite orb_false_iff, !Z.ltb_ge. split.
      + intros H d' b' Hd' Hb'. injection Hd' as <-.
        rewrite Hp in Hb'. injection Hb' as <-. lia.
      + intros H. specialize (H (c :: d) b eq_refl Hp). lia.
    - split; [|reflexivity]. intros _ d' b' Hd' Hb'. injection Hd' as <-.
      congruence. }
  unfold validateEnrollmentData.
  split.
  - intros H.
    apply app_eq_nil in H as [Hr H]. apply app_eq_nil in H as [He H].
    apply app_eq_nil in H as [Hp H]. apply app_eq_nil in H as [Hq Ha].
    assert (Hall : forall field, In field requiredFields ->
                     exists s, data !! field = Some s /\ trim s <> []).
    { intros f Hf. apply not_missing. now apply required_errors_nil. }
    unfold email_errors, phone_errors, emergency_phone_errors, age_errors in *.
    rewrite push_if_nil in He, Hp, Hq, Ha.
    split; [exact Hall|].
    split; [apply (Hfmt (u "email") isEmail); auto;
            unfold requiredFields; simpl; tauto|].
    split; [apply (Hfmt (u "phone") phone_test); auto;
            unfold requiredFields; simpl; tauto|].
    split; [apply (Hfmt (u "emergencyPhone") phone_test); auto;
            unfold requiredFields; simpl; tauto|].
    now apply Hage.
  - intros (Hall & He & Hp & Hq & Ha).
    assert (Hr : required_errors data = []).
    { apply required_errors_nil. intros f Hf. apply not_missing. auto. }
    rewrite Hr. unfold email_errors, phone_errors, emergency_phone_errors,
      age_errors.
    apply (Hfmt (u "email") isEmail) in He;
      [|unfold requiredFields; simpl; tauto | exact Hall].
    apply (Hfmt (u "phone") phone_test) in Hp;
      [|unfold requiredFields; simpl; tauto | exact Hall].
    apply (Hfmt (u "emergencyPhone") phone_test) in Hq;
      [|unfold requiredFields; simpl; tauto | exact Hall].
    apply (Hage Hall) in Ha.
    rewrite He, Hp, Hq, Ha. reflexivity.
Qed.

(** X5: the validator returns no error exactly when all twelve required
    fields are there and not blank, the email passes [isEmail], both phone
    numbers pass the phone test, and the date of birth either does not
    parse or gives an age from 16 to 100. *)
Theorem validator_accepts_iff (now : Z) (data : gmap jsstring jsstring) :
  validateEnrollmentData now data = [] <->
  (forall field, In field requiredFields ->
     exists s, data !! field = Some s /\ trim s <> [])
  /\ (forall e, data !! u "email" = Some e -> isEmail e = true)
  /\ (forall p, data !! u "phone" = Some p -> phone_test p = true)
  /\ (forall p, data !! u "emergencyPhone" = Some p -> phone_test p = true)
  /\ (forall d birth, data !! u "dateOfBirth" = Some d ->
        Date_parse d = Some birth ->
        (16 <= (now - birth) / msPerYear <= 100)%Z).
Proof. apply accepted_iff. Qed.

(** X6: in terms of dates, both age rules (the validator's and the
    schema's) accept a birth date exactly when it lies at least 16 years
    of 365.25 days before the clock reading and less than 101 such years
    before it. *)
Theorem age_rules_as_a_window (now birth : Z) :
  (age_out_of_bounds (age_at now (Some birth)) = false
   <-> (now - 101 * 31557600000 < birth <= now - 16 * 31557600000)%Z)
  /\ (schema_age_ok now birth = true
      <-> (now - 101 * 31557600000 < birth <= now - 16 * 31557600000)%Z).
Proof.
  pose proof (age_window now birth) as Hw. unfold msPerYear in Hw.
  split.
  - simpl. rewrite orb_false_iff, !Z.ltb_ge. unfold msPerYear. lia.
  - unfold schema_age_ok. rewrite andb_true_iff, !Z.leb_le.
    unfold msPerYear. lia.
Qed.

End Acceptance.

(** ** What the intake handler answers and writes *)

Section MoreIntake.

Context `{P : Platform}.

Lemma first_failure_nil (rules : list rule) (v : jsstring) :
  first_failure rules v = [] <-> Forall (fun r => fst r v = true) rules.
Proof.
  induction rules as [|[ok msg] rest IH]; simpl.
  - split; [constructor | reflexivity].
  - destruct (ok v) eqn:E.
    + rewrite IH. split.
      * intros H. now constructor.
      * intros H. now inversion H.
    + split; [discriminate|]. intros H. inversion H; subst. simpl in *.
      congruence.
Qed.

Lemma check_path_nil (m : jsstring) (rules : list rule) (v : option jsstring) :
  check_path m rules v = [] ->
  exists s, v = Some s /\ s <> [] /\ Forall (fun r => fst r s = true) rules.
Proof.
  unfold check_path. destruct v as [[|c s]|]; try discriminate.
  intros H. exists (c :: s). split; [reflexivity|]. split; [discriminate|].
  now apply first_failure_nil.
Qed.

(** A document that passes the schema has every path set. *)
Lemma schema_ok_materializes (env : Env) (now : Z) (d : StudentData.t) :
  schema_errors now d = [] -> exists doc, materialize env d = Some doc.
Proof.
  unfold schema_errors. intros H.
  repeat match type of H with
         | _ ++ _ = [] => apply app_eq_nil in H as [?H H]
         end.
  repeat match goal with
         | Hc : check_path _ _ _ = [] |- _ =>
             apply check_path_nil in Hc as (? & ? & _ & _)
         end.
  unfold cast_errors in *.
  destruct (StudentData.dateOfBirth d) as [b|] eqn:Hb; [|discriminate].
  unfold materialize.
  repeat match goal with
         | Hs : _ = Some _ |- _ => rewrite Hs; clear Hs
         end.
  simpl. eauto.
Qed.

(** The paths through the handler, by status code. *)
Lemma send_by_status (env : Env) (body : gmap jsstring jsstring) (w : World) :
  let data := sanitize_str <$> body in
  let docs := store w ++ interleaved env in
  (statusCode (fst (send env body w)) = 400
   /\ (store (snd (send env body w)) = store w
       \/ store (snd (send env body w)) = docs))
  \/ (statusCode (fst (send env body w)) = 409
      /\ (store (snd (send env body w)) = store w
          \/ store (snd (send env body w)) = docs))
  \/ (statusCode (fst (send env body w)) = 500
      /\ store (snd (send env body w)) = docs
      /\ validateEnrollmentData (t_validate env) data = []
      /\ storage_fault env = true)
  \/ (exists doc,
        fst (send env body w) = created doc
        /\ store (snd (send env body w)) = docs ++ [doc]
        /\ Student._id doc = new_id env
        /\ Student.status doc = u "pending").
Proof.
  intros data docs. subst data docs.
  pose proof (send_cases env body w) as Hcases. cbv zeta in Hcases.
  destruct Hcases
    as [[_ Hs]|[(Hv & Hnone & Hs)|[(e & r & _ & _ & _ & Hs)
       |[(e & d & Hv & He & _ & Hsave & Hs)|(e & f & Hv & He & _ & Hsave & Hne & Hs)]]]];
    rewrite Hs; simpl.
  - left. auto.
  - exfalso.
    destruct (validated_present _ _ (u "email") Hv) as (x & Hx & _);
      [unfold requiredFields; simpl; tauto | congruence].
  - right. left. auto.
  - right. right. right. exists d. rewrite notify_store. simpl.
    destruct (save_outcome env (studentData env e (sanitize_str <$> body))
                (store w ++ interleaved env))
      as [(doc' & Hs' & _ & Hm & _)|(f & Hs' & Hne)];
      rewrite Hsave in Hs'.
    + injection Hs' as <-.
      destruct (materialize_fields env e _ d Hm) as (Hid & _ & _ & Hst & _).
      auto.
    + injection Hs' as <- _. exfalso. eapply Hne. reflexivity.
  - unfold save in Hsave.
    destruct (schema_errors (t_schema env) _) as [|m ms] eqn:Hsch.
    + destruct (schema_ok_materializes env _ _ Hsch) as (doc & Hm).
      rewrite Hm in Hsave.
      destruct (storage_fault env) eqn:Hfault.
      * injection Hsave as <-. right. right. left. simpl. auto.
      * destruct (unique_violation doc _) as [key|].
        -- injection Hsave as <-. right. left. simpl. auto.
        -- injection Hsave as <- _. exfalso. eapply Hne. reflexivity.
    + injection Hsave as <-. left. simpl. auto.
Qed.

(** X7: the handler answers 201, 400, 409 or 500 and nothing else; it
    writes one document, with the generated identity and the status
    pending, exactly when it answers 201, and otherwise leaves the store
    without a document of its own. *)
Theorem answers_and_writes (env : Env) (body : gmap jsstring jsstring)
    (w : World) :
  (statusCode (fst (send env body w)) = 201
   \/ statusCode (fst (send env body w)) = 400
   \/ statusCode (fst (send env body w)) = 409
   \/ statusCode (fst (send env body w)) = 500)
  /\ (statusCode (fst (send env body w)) = 201 <->
      exists doc, store (snd (send env body w))
                  = store w ++ interleaved env ++ [doc]
                  /\ Student._id doc = new_id env
                  /\ Student.status doc = u "pending")
  /\ (statusCode (fst (send env body w)) <> 201 ->
      store (snd (send env body w)) = store w
      \/ store (snd (send env body w)) = store w ++ interleaved env).
Proof.
  pose proof (send_by_status env body w) as H. cbv zeta in H.
  assert (Hlen : forall (l k : list Student.t) doc, l <> l ++ k ++ [doc]).
  { intros l k doc E. apply (f_equal (@length _)) in E.
    rewrite !length_app in E. simpl in E. lia. }
  destruct H as [[Hc Hst]|[[Hc Hst]|[(Hc & Hst & _)|(doc & Hr & Hst & Hid & Hp)]]].
  - split; [auto|]. split; [|auto]. split; [congruence|].
    intros (doc & E & _). exfalso. destruct Hst as [Hst|Hst]; rewrite Hst in E.
    + eapply Hlen, E.
    + rewrite <- (app_nil_r (store w ++ interleaved env)) in E.
      rewrite <- !app_assoc in E. do 2 apply app_inv_head in E. discriminate.
  - split; [auto|]. split; [|auto]. split; [congruence|].
    intros (doc & E & _). exfalso. destruct Hst as [Hst|Hst]; rewrite Hst in E.
    + eapply Hlen, E.
    + rewrite <- (app_nil_r (store w ++ interleaved env)) in E.
      rewrite <- !app_assoc in E. do 2 apply app_inv_head in E. discriminate.
  - split; [auto|]. split; [|auto]. split; [congruence|].
    intros (doc & E & _). exfalso. rewrite Hst in E.
    rewrite <- (app_nil_r (store w ++ interleaved env)) in E.
    rewrite <- !app_assoc in E. do 2 apply app_inv_head in E. discriminate.
  - rewrite Hr, Hst. simpl. split; [auto|]. split.
    + split; [|reflexivity]. intros _. exists doc. now rewrite <- app_assoc.
    + intros Hne. now destruct Hne.
Qed.


Lemma schema_ok_fields (env : Env) (now : Z) (d : StudentData.t)
    (doc : Student.t) :
  schema_errors now d = [] ->
  materialize env d = Some doc ->
  satisfies_schema now doc.
Proof.
  unfold schema_errors. intros H Hm.
  repeat match type of H with
         | _ ++ _ = [] => apply app_eq_nil in H as [?H H]
         end.
  repeat match goal with
         | Hc : check_path _ _ _ = [] |- _ =>
             apply check_path_nil in Hc as (? & ? & ? & ?)
         end.
  unfold cast_errors, date_errors in *.
  destruct (StudentData.dateOfBirth d) as [b|] eqn:Hb; [|discriminate].
  revert Hm. unfold materialize.
  repeat match goal with
         | Hs : _ = Some _ |- _ => rewrite Hs; clear Hs
         end.
  simpl. intros Hm. injection Hm as <-. unfold satisfies_schema.
  cbv beta iota delta [Student.firstName Student.lastName Student.email
    Student.phone Student.idnumber Student.dateOfBirth Student.course
    Student.address Student.city Student.zipCode Student.emergencyContact
    Student.emergencyPhone Student.status].
  repeat match goal with
         | Hf : Forall _ (_ :: _) |- _ => inversion Hf; subst; clear Hf
         | Hf : Forall _ [] |- _ => clear Hf
         end.
  unfold minlength, maxlength, enum in *. cbv beta iota delta [fst] in *.
  repeat match goal with
         | Hl : (_ <=? _)%nat = true |- _ => apply Nat.leb_le in Hl
         | Hl : bool_decide _ = true |- _ => apply bool_decide_eq_true in Hl
         end.
  match goal with
  | Hp : push_if _ _ = [] |- _ =>
      apply push_if_nil, negb_false_iff in Hp; unfold schema_age_ok in Hp;
      apply andb_prop in Hp as [Hlo Hhi];
      apply Z.leb_le in Hlo; apply Z.leb_le in Hhi
  end.
  repeat split; try assumption; try lia.
  now apply list_elem_of_In.
Qed.

(** X9: every document the handler writes satisfies the schema at the time
    of the write: names of 2 to 50 characters, an email [isEmail] accepts,
    phone numbers that pass the phone test, an id number of at least 6
    characters, an age from 16 to 100, a course of the catalog, an address
    of at least 10 characters, city, zip code and emergency contact not
    empty, status pending. *)
Theorem written_document_satisfies_schema (env : Env)
    (body : gmap jsstring jsstring) (w : World) :
  statusCode (fst (send env body w)) = 201 ->
  exists doc,
    fst (send env body w) = created doc
    /\ store (snd (send env body w)) = store w ++ interleaved env ++ [doc]
    /\ satisfies_schema (t_schema env) doc.
Proof.
  intros Hcode.
  pose proof (send_cases env body w) as Hcases. cbv zeta in Hcases.
  destruct Hcases
    as [[_ Hs]|[(_ & _ & Hs)|[(e & r & _ & _ & _ & Hs)
       |[(e & d & _ & _ & _ & Hsave & Hs)|(e & f & _ & _ & _ & _ & _ & Hs)]]]];
    rewrite Hs in Hcode |- *; simpl in Hcode |- *; try discriminate.
  - exists d. split; [reflexivity|]. rewrite notify_store. simpl.
    split; [now rewrite <- app_assoc|].
    destruct (save_outcome env (studentData env e (sanitize_str <$> body))
                (store w ++ interleaved env))
      as [(doc' & Hs' & Hsch & Hm & _)|(f & Hs' & Hne)];
      rewrite Hsave in Hs'.
    + injection Hs' as <-. eapply schema_ok_fields; eauto.
    + injection Hs' as <- _. exfalso. eapply Hne. reflexivity.
  - destruct f; discriminate.
Qed.

Lemma NoDup_map_prefix {A : Type} (f : Student.t -> A)
    (l k : list Student.t) :
  NoDup (map f (l ++ k)) -> NoDup (map f l).
Proof. rewrite map_app. intros H. now apply NoDup_app in H as [H _]. Qed.

Lemma NoDup_map_snoc {A : Type} (f : Student.t -> A)
    (docs : list Student.t) (doc : Student.t) :
  NoDup (map f docs) ->
  (forall r, In r docs -> f r <> f doc) ->
  NoDup (map f (docs ++ [doc])).
Proof.
  intros Hn Hfresh. rewrite map_app. apply NoDup_app.
  split; [exact Hn|]. split; [|apply NoDup_singleton].
  intros x Hx Hx'. apply list_elem_of_In, in_map_iff in Hx as (r & <- & Hr).
  simpl in Hx'. apply list_elem_of_singleton in Hx'. eapply Hfresh; eauto.
Qed.

(** X10: the handler keeps the store free of duplicates: if no two
    documents of the store it writes to share an identity, an email or an
    id number, the same holds of the store it leaves. *)
Theorem send_keeps_unique_keys (env : Env) (body : gmap jsstring jsstring)
    (w : World) :
  unique_keys (store w ++ interleaved env) ->
  unique_keys (store (snd (send env body w))).
Proof.
  intros (Hid & Hem & Hnum).
  assert (Hprefix : unique_keys (store w)).
  { repeat split; eapply NoDup_map_prefix; eassumption. }
  pose proof (send_cases env body w) as Hcases. cbv zeta in Hcases.
  destruct Hcases
    as [[_ Hs]|[(_ & _ & Hs)|[(e & r & _ & _ & _ & Hs)
       |[(e & d & _ & _ & _ & Hsave & Hs)|(e & f & _ & _ & _ & _ & _ & Hs)]]]];
    rewrite Hs; simpl; try exact Hprefix.
  - rewrite notify_store. simpl.
    destruct (save_outcome env (studentData env e (sanitize_str <$> body))
                (store w ++ interleaved env))
      as [(doc' & Hs' & _ & _ & _ & Hu)|(f & Hs' & Hne)];
      rewrite Hsave in Hs'.
    + injection Hs' as <-.
      pose proof (unique_violation_none d _ Hu) as Hfresh.
      repeat split; apply NoDup_map_snoc; try assumption;
        intros r Hr; apply (Hfresh r Hr).
    + injection Hs' as <- _. exfalso. eapply Hne. reflexivity.
  - repeat split; assumption.
Qed.

Lemma find_snoc (f : Student.t -> bool) (docs : list Student.t)
    (doc : Student.t) :
  (forall r, In r docs -> f r = false) -> f doc = true ->
  List.find f (docs ++ [doc]) = Some doc.
Proof.
  intros Hnone Hdoc. induction docs as [|r rest IH]; simpl.
  - now rewrite Hdoc.
  - rewrite (Hnone r) by now left. apply IH. intros x Hx. apply Hnone. now right.
Qed.

(** X11: a submission that was enrolled cannot be enrolled again: sent a
    second time to the store the first request left, whatever the clock and
    the identity of the second request, it is answered 409 with code
    DUPLICATE_ENTRY and nothing is written; the document found is the one
    the first request wrote, and the message names the email when the
    lower-cased email is what the store keeps of it. *)
Theorem resubmission_is_a_conflict (env env2 : Env)
    (body : gmap jsstring jsstring) (w : World) :
  statusCode (fst (send env body w)) = 201 ->
  validateEnrollmentData (t_validate env2) (sanitize_str <$> body) = [] ->
  exists doc email,
    fst (send env body w) = created doc
    /\ (sanitize_str <$> body) !! u "email" = Some email
    /\ fst (send env2 body (snd (send env body w)))
       = duplicate_entry (duplicateField doc email)
    /\ statusCode (fst (send env2 body (snd (send env body w)))) = 409
    /\ store (snd (send env2 body (snd (send env body w))))
       = store (snd (send env body w))
    /\ (trim (toLowerCase (toLowerCase email)) = toLowerCase email ->
        fst (send env2 body (snd (send env body w)))
        = duplicate_entry (u "email")).
Proof.
  intros Hcode Hv2.
  pose proof (send_cases env body w) as Hcases. cbv zeta in Hcases.
  destruct Hcases
    as [[_ Hs]|[(_ & _ & Hs)|[(e & r & _ & _ & _ & Hs)
       |[(e & d & _ & He & _ & Hsave & Hs)|(e & f & _ & _ & _ & _ & _ & Hs)]]]];
    rewrite Hs in Hcode; simpl in Hcode; try discriminate.
  2:{ destruct f; discriminate. }
  destruct (save_outcome env (studentData env e (sanitize_str <$> body))
              (store w ++ interleaved env))
    as [(doc' & Hs' & _ & Hm & _ & Hu)|(f & Hs' & Hne)];
    rewrite Hsave in Hs'.
  2:{ injection Hs' as <- _. exfalso. eapply Hne. reflexivity. }
  injection Hs' as <-.
  destruct (materialize_fields env e _ d Hm) as (_ & Hemail & _ & _ & _ & Hfields).
  destruct (Hfields (u "idnumber") Student.idnumber) as (sid & Hsid & Hnum);
    [unfold string_fields; simpl; tauto|].
  pose proof (unique_violation_none d _ Hu) as Hfresh.
  exists d, e. rewrite Hs. simpl.
  split; [reflexivity|]. split; [exact He|].
  set (w1 := notify env _).
  assert (Hst : store w1 = (store w ++ interleaved env) ++ [d]).
  { unfold w1. now rewrite notify_store. }
  assert (Hfind : findOne (duplicate_filter (toLowerCase e)
                             ((sanitize_str <$> body) !! u "idnumber"))
                          (store w1) = Some d).
  { rewrite Hst, Hsid. unfold findOne. apply find_snoc.
    - intros r Hr. destruct (Hfresh r Hr) as (_ & Hne1 & Hne2).
      unfold duplicate_filter. simpl. apply orb_false_iff.
      split; apply bool_decide_eq_false; intros E; injection E as E; congruence.
    - unfold duplicate_filter. simpl. apply orb_true_iff. left.
      apply bool_decide_eq_true. now rewrite Hemail. }
  assert (Hsend : send env2 body w1
                  = (duplicate_entry (duplicateField d e), say LogReceived w1)).
  { unfold send. rewrite Hv2. simpl. rewrite He.
    change (store (say LogReceived w1)) with (store w1).
    now rewrite Hfind. }
  rewrite Hsend. simpl.
  split; [reflexivity|]. split; [reflexivity|]. split; [reflexivity|].
  intros Hnorm. unfold duplicateField.
  rewrite bool_decide_eq_true_2; [reflexivity|]. now rewrite Hemail.
Qed.



End MoreIntake.

(** ** The rate limiters *)

Section MoreRouting.

Context `{P : Platform}.

(** X13: the limiters answer before any handler runs. Over the general
    limit every request, whatever its method, path and body, is answered
    429 and the world is untouched. Within it but over the form limit, a
    POST to [/send] and a POST to [/api/route] are both answered 429 with
    the message of the form limiter, again with the world untouched. *)
Theorem limiters_answer_first (env : Env) (w : World) :
  (within_general_limit env = false ->
   forall req,
     serve env req w
     = (Reply (too_many
          (u "Too many requests from this IP, please try again later.")), w))
  /\ (within_general_limit env = true -> within_form_limit env = false ->
      forall body,
        serve env (request POST (u "/send") body) w
        = (Reply (too_many
             (u "Too many enrollment attempts. Please try again in 15 minutes.")),
           w)
        /\ serve env (request POST (u "/api/route") body) w
           = serve env (request POST (u "/send") body) w).
Proof.
  split.
  - intros Hg req. unfold serve, app. simpl.
    unfold pass_through, limiter. rewrite Hg. reflexivity.
  - intros Hg Hf body.
    assert (Hsend : serve env (request POST (u "/send") body) w
                    = (Reply (too_many
                         (u "Too many enrollment attempts. Please try again in 15 minutes.")),
                       w)).
    { unfold serve, app, request. simpl.
      unfold limiter, pass_through. rewrite Hg. simpl.
      unfold formLimiter. rewrite Hf. reflexivity. }
    split; [exact Hsend|]. rewrite Hsend.
    unfold serve, app, request. simpl.
    unfold limiter, pass_through. rewrite Hg. simpl.
    unfold redirect_to_send, formLimiter. rewrite Hf. reflexivity.
Qed.

End MoreRouting.

(** ** The mail transport *)

Section MoreTransport.

Lemma own_config_names (e : ProcessEnv.t) (key : jsstring) :
  own_config (transporterConfigs e) key <> None
  <-> In key [u "gmail"; u "sendgrid"; u "mailgun"; u "outlook"].
Proof.
  unfold transporterConfigs. simpl.
  repeat case_bool_decide; subst; split; intros Hx;
    try discriminate; try (simpl; auto 10; fail); try congruence.
  simpl in Hx. intuition congruence.
Qed.

(** X14: [createTransporter] takes the service from EMAIL_SERVICE and falls
    back to gmail when the variable is unset or empty. It throws
    Unsupported email service, with the name in the message, exactly when
    the name is none of gmail, sendgrid, mailgun and outlook and is not an
    inherited property of the configuration object either; with the
    fallback it hands over the gmail configuration with EMAIL_USER and
    EMAIL_PASS. *)
Theorem createTransporter_selects (e : ProcessEnv.t) :
  ((exists message, createTransporter e = Unsupported message)
   <-> ~ In (emailService e) [u "gmail"; u "sendgrid"; u "mailgun"; u "outlook"]
       /\ ~ In (emailService e) inherited_keys)
  /\ (forall message, createTransporter e = Unsupported message ->
        message = u "Unsupported email service: " ++ emailService e)
  /\ (ProcessEnv.EMAIL_SERVICE e = None \/ ProcessEnv.EMAIL_SERVICE e = Some [] ->
      createTransporter e
      = HandedOver (OwnConfig (ServiceConfig (u "gmail")
                                 (ProcessEnv.EMAIL_USER e)
                                 (ProcessEnv.EMAIL_PASS e)))).
Proof.
  split; [|split].
  - unfold createTransporter, member.
    pose proof (own_config_names e (emailService e)) as Hown.
    destruct (own_config (transporterConfigs e) (emailService e)) as [c|].
    + split.
      * intros (m & Hm). discriminate.
      * intros [Hn _]. exfalso. apply Hn, Hown. discriminate.
    + case_bool_decide as Hin.
      * split.
        -- intros (m & Hm). discriminate.
        -- intros [_ Hn]. exfalso. apply Hn. now apply list_elem_of_In.
      * split; [|eauto]. intros _. split.
        -- intros Hn. apply Hown in Hn. congruence.
        -- intros Hn. apply Hin. now apply list_elem_of_In.
  - unfold createTransporter. intros m.
    destruct (member _ _); intros H; [discriminate|]. now injection H as <-.
  - intros H. unfold createTransporter, emailService.
    destruct H as [-> | ->]; reflexivity.
Qed.

End MoreTransport.

(** ** The first server *)

Section MoreLegacy.

Import Legacy.

Lemma first_external_find (entries : list NetIf) :
  first_external entries = address <$> List.find external_ipv4 entries.
Proof.
  induction entries as [|i rest IH]; simpl; [reflexivity|].
  unfold external_ipv4 at 1.
  destruct (bool_decide (family i = u "IPv4") && negb (internal i));
    [reflexivity | exact IH].
Qed.

Lemma find_app_list {A : Type} (f : A -> bool) (l k : list A) :
  List.find f (l ++ k)
  = match List.find f l with Some x => Some x | None => List.find f k end.
Proof.
  induction l as [|x l IH]; simpl; [reflexivity|].
  destruct (f x); [reflexivity | exact IH].
Qed.

Lemma getLocalIP_find (interfaces : list (jsstring * list NetIf)) :
  getLocalIP interfaces
  = match List.find external_ipv4 (flat_map snd interfaces) with
    | Some i => address i
    | None => u "localhost"
    end.
Proof.
  induction interfaces as [|[name entries] rest IH]; simpl; [reflexivity|].
  rewrite find_app_list, first_external_find.
  destruct (List.find external_ipv4 entries); simpl; [reflexivity | exact IH].
Qed.

(** X15: [getLocalIP] returns the address of the first entry, in the order
    of the interfaces and of the entries of each, that is IPv4 and not
    internal; every entry before it is internal or not IPv4. It returns
    localhost exactly when it has no such address to return, in particular
    when there is no interface at all. *)
Theorem getLocalIP_first_external (interfaces : list (jsstring * list NetIf)) :
  ((forall i, In i (flat_map snd interfaces) -> external_ipv4 i = false) ->
   getLocalIP interfaces = u "localhost")
  /\ ((exists i, In i (flat_map snd interfaces) /\ external_ipv4 i = true) ->
      exists before i after,
        flat_map snd interfaces = before ++ i :: after
        /\ (forall j, In j before -> external_ipv4 j = false)
        /\ external_ipv4 i = true
        /\ getLocalIP interfaces = address i)
  /\ getLocalIP [] = u "localhost".
Proof.
  rewrite getLocalIP_find. split; [|split; [|reflexivity]].
  - intros Hnone.
    destruct (List.find external_ipv4 _) as [i|] eqn:Hf; [|reflexivity].
    apply find_some in Hf as [Hin Hi]. rewrite (Hnone i Hin) in Hi. discriminate.
  - intros (i0 & Hin0 & Hi0).
    induction (flat_map snd interfaces) as [|j l IH]; [destruct Hin0|].
    simpl. destruct (external_ipv4 j) eqn:Hj.
    + exists [], j, l. repeat split; auto. intros k [].
    + destruct Hin0 as [->|Hin0]; [congruence|].
      destruct (IH Hin0) as (before & i & after & Hl & Hb & Hi & Ha).
      exists (j :: before), i, after.
      split; [now rewrite Hl|]. split; [|split; [exact Hi | exact Ha]].
      intros k [<-|Hk]; auto.
Qed.



(** X17: the first server mails in a fixed order and stops at the first
    failure: nothing is handed to the transport when the answer is 400;
    otherwise the mail to the administrator goes first, with the
    applicant's address as reply-to, and the confirmation to the address
    as submitted is attempted only after the transport accepted the first
    one. The answer is 200 only after both were handed over. *)
Theorem enrollment_mails_in_order (link : Link) (body : gmap jsstring jsstring) :
  (statusCode (fst (enrollment link body)) = 400 -> snd (enrollment link body) = [])
  /\ (statusCode (fst (enrollment link body)) <> 400 ->
      head (snd (enrollment link body)) = Some (admin_envelope link body)
      /\ replyTo (admin_envelope link body) = body !! u "email"
      /\ to (admin_envelope link body) = Some adminAddress)
  /\ (In (student_envelope link body) (snd (enrollment link body))
      <-> statusCode (fst (enrollment link body)) <> 400
          /\ admin_accepted link = true)
  /\ (statusCode (fst (enrollment link body)) = 200 ->
      snd (enrollment link body)
      = [admin_envelope link body; student_envelope link body]
      /\ to (student_envelope link body) = body !! u "email").
Proof.
  assert (Hdiff : admin_envelope link body <> student_envelope link body).
  { intros E. apply (f_equal (fun e => head (subject e))) in E.
    vm_compute in E. discriminate E. }
  unfold enrollment.
  destruct (existsb _ required); simpl.
  - repeat split; try congruence; try tauto.
  - destruct (admin_accepted link), (student_accepted link); simpl;
      repeat split; try congruence; try discriminate; auto;
      try (intros [E|[]]; congruence); try tauto;
      try (intros (_ & ?); discriminate).
Qed.

End MoreLegacy.

(** ** Emails and id numbers already taken *)

Section Taken.

Context `{P : Platform}.

Lemma send_conflict (env : Env) (body : gmap jsstring jsstring) (w : World)
    (email : jsstring) :
  validateEnrollmentData (t_validate env) (sanitize_str <$> body) = [] ->
  (sanitize_str <$> body) !! u "email" = Some email ->
  (exists r, In r (store w)
             /\ duplicate_filter (toLowerCase email)
                  ((sanitize_str <$> body) !! u "idnumber") r = true) ->
  exists r0, In r0 (store w)
             /\ send env body w
                = (duplicate_entry (duplicateField r0 email), say LogReceived w).
Proof.
  intros Hv He (r & Hr & Hpass).
  destruct (findOne (duplicate_filter (toLowerCase email)
                       ((sanitize_str <$> body) !! u "idnumber")) (store w))
    as [r0|] eqn:Hfind.
  - exists r0. split; [eapply find_some; exact Hfind|].
    unfold send. rewrite Hv. simpl. rewrite He.
    change (store (say LogReceived w)) with (store w). now rewrite Hfind.
  - unfold findOne in Hfind.
    pose proof (find_none _ _ Hfind r Hr). congruence.
Qed.

(** X19: once a submission is enrolled its email and its id number are
    taken. Any later submission that passes the validator and whose email,
    lower-cased and trimmed as the store does, is the email of the written
    document, or whose trimmed id number is that document's, is answered
    409 with code DUPLICATE_ENTRY and writes nothing, whatever its other
    fields. *)
Theorem enrolled_keys_are_taken (env env2 : Env)
    (body body2 : gmap jsstring jsstring) (w : World) (doc : Student.t)
    (email2 idnumber2 : jsstring) :
  store (snd (send env body w)) = store w ++ interleaved env ++ [doc] ->
  validateEnrollmentData (t_validate env2) (sanitize_str <$> body2) = [] ->
  (sanitize_str <$> body2) !! u "email" = Some email2 ->
  (sanitize_str <$> body2) !! u "idnumber" = Some idnumber2 ->
  trim (toLowerCase (toLowerCase email2)) = Student.email doc
  \/ trim idnumber2 = Student.idnumber doc ->
  statusCode (fst (send env2 body2 (snd (send env body w)))) = 409
  /\ (exists field,
        json (fst (send env2 body2 (snd (send env body w))))
        = ConflictBody (u "A student with this " ++ field ++ u " already exists")
                       (u "DUPLICATE_ENTRY"))
  /\ store (snd (send env2 body2 (snd (send env body w))))
     = store (snd (send env body w)).
Proof.
  intros Hstore Hv2 He2 Hi2 Hkey.
  destruct (send_conflict env2 body2 (snd (send env body w)) email2 Hv2 He2)
    as (r0 & _ & Hs).
  { exists doc. split.
    - rewrite Hstore, !in_app_iff. right. right. now left.
    - rewrite Hi2. unfold duplicate_filter. simpl. apply orb_true_iff.
      destruct Hkey as [Hk|Hk]; [left | right];
        apply bool_decide_eq_true; now rewrite Hk. }
  rewrite Hs. simpl. split; [reflexivity|]. split; [eauto | reflexivity].
Qed.

End Taken.

(** ** Reading after writing *)

Section ReadAfterWrite.

Context `{P : Platform}.

Lemma send_store_extends (env : Env) (body : gmap jsstring jsstring)
    (w : World) :
  exists extra, store (snd (send env body w)) = store w ++ extra.
Proof.
  pose proof (send_cases env body w) as Hcases. cbv zeta in Hcases.
  destruct Hcases
    as [[_ Hs]|[(_ & _ & Hs)|[(e & r & _ & _ & _ & Hs)
       |[(e & d & _ & _ & _ & _ & Hs)|(e & f & _ & _ & _ & _ & _ & Hs)]]]];
    rewrite Hs; simpl; try (exists []; now rewrite app_nil_r).
  - rewrite notify_store. simpl. exists (interleaved env ++ [d]).
    now rewrite <- app_assoc.
  - now exists (interleaved env).
Qed.

Lemma submissions_store_extends
    (reqs : list (Env * gmap jsstring jsstring)) (w : World) :
  exists extra, store (submissions reqs w) = store w ++ extra.
Proof.
  revert w. induction reqs as [|[env body] reqs IH]; intros w.
  - exists []. simpl. now rewrite app_nil_r.
  - change (submissions ((env, body) :: reqs) w)
      with (submissions reqs (snd (send env body w))).
    destruct (IH (snd (send env body w))) as (k & Hk).
    destruct (send_store_extends env body w) as (e & He).
    exists (e ++ k). rewrite Hk, He. now rewrite <- app_assoc.
Qed.

Lemma find_prefix (f : Student.t -> bool) (docs extra : list Student.t)
    (r : Student.t) :
  List.find f docs = Some r -> List.find f (docs ++ extra) = Some r.
Proof.
  induction docs as [|d docs IH]; simpl; [discriminate|].
  destruct (f d); auto.
Qed.

(** X20: the handler of [POST /send] never removes or changes a stored
    document. After any sequence of submissions, whatever each of them was
    answered, the store is the earlier store followed by the documents
    written since; so a student that [GET /api/students/:id] could read
    before is read after with the same answer. *)
Theorem enrolled_student_stays_readable
    (reqs : list (Env * gmap jsstring jsstring)) (w : World) :
  (exists extra, store (submissions reqs w) = store w ++ extra)
  /\ (forall id, statusCode (getStudent id w) = 200 ->
        getStudent id (submissions reqs w) = getStudent id w)
  /\ (forall id, statusCode (getStudent id w) = 400 <->
        statusCode (getStudent id (submissions reqs w)) = 400).
Proof.
  destruct (submissions_store_extends reqs w) as (extra & He).
  split; [now exists extra|]. split.
  - intros id. unfold getStudent. rewrite He.
    destruct (ObjectId_cast id) as [oid|]; [|reflexivity].
    unfold findById.
    destruct (List.find _ (store w)) as [r|] eqn:Hr; [|discriminate].
    intros _. now rewrite (find_prefix _ _ extra _ Hr).
  - intros id. unfold getStudent.
    destruct (ObjectId_cast id) as [oid|]; [|tauto].
    destruct (findById oid (store w)), (findById oid (store (submissions reqs w)));
      simpl; split; discriminate.
Qed.

End ReadAfterWrite.

(** ** The further properties on sample requests *)

Section MoreSamples.

Import Demo Cases.

(** A submission of blanks and a refused address are reported in the
    fixed order. *)
Example errors_in_order :
  validateEnrollmentData new_year_2026
    (sanitize_str <$> (<[u "email" := u "not-an-email"]>
                       (<[u "phone" := u "12345"]> two_missing)))
  = [ u "lastName is required"; u "city is required";
      email_message; phone_message ].
Proof. vm_compute. reflexivity. Qed.


Lemma written_document_satisfies_schema_witness :
  statusCode (fst (send env0 ann world0)) = 201
  /\ exists doc, fst (send env0 ann world0) = created doc
                 /\ satisfies_schema (t_schema env0) doc.
Proof.
  assert (H : statusCode (fst (send env0 ann world0)) = 201)
    by (vm_compute; reflexivity).
  destruct (written_document_satisfies_schema env0 ann world0 H)
    as (doc & A & _ & B).
  exact (conj H (ex_intro _ doc (conj A B))).
Defined.

Lemma send_keeps_unique_keys_witness :
  unique_keys (store world_with_ann ++ interleaved env_later)
  /\ store (snd (send env_later carl world_with_ann)) <> store world_with_ann
  /\ unique_keys (store (snd (send env_later carl world_with_ann))).
Proof.
  assert (H : unique_keys (store world_with_ann ++ interleaved env_later)).
  { unfold unique_keys. simpl.
    exact (conj (NoDup_singleton _)
                (conj (NoDup_singleton _) (NoDup_singleton _))). }
  assert (G : store (snd (send env_later carl world_with_ann))
              <> store world_with_ann).
  { intros E. vm_compute in E. discriminate E. }
  exact (conj H (conj G (send_keeps_unique_keys env_later carl world_with_ann H))).
Defined.

Lemma resubmission_is_a_conflict_witness :
  statusCode (fst (send env0 ann world0)) = 201
  /\ validateEnrollmentData (t_validate env_later) (sanitize_str <$> ann) = []
  /\ fst (send env_later ann (snd (send env0 ann world0)))
     = duplicate_entry (u "email").
Proof.
  assert (H1 : statusCode (fst (send env0 ann world0)) = 201)
    by (vm_compute; reflexivity).
  assert (H2 : validateEnrollmentData (t_validate env_later)
                 (sanitize_str <$> ann) = [])
    by (vm_compute; reflexivity).
  destruct (resubmission_is_a_conflict env0 env_later ann world0 H1 H2)
    as (doc & email & _ & He & _ & _ & _ & A).
  assert (E : (sanitize_str <$> ann) !! u "email" = Some (u "ANN@X.COM"))
    by (vm_compute; reflexivity).
  rewrite E in He. injection He as <-.
  exact (conj H1 (conj H2 (A ltac:(vm_compute; reflexivity)))).
Defined.


Lemma send_keeps_stored_form_witness :
  Forall stored_form (store world_with_ann)
  /\ Forall stored_form (interleaved env_later)
  /\ Forall stored_form (store (snd (send env_later carl world_with_ann))).
Proof.
  assert (H1 : Forall stored_form (store world_with_ann)).
  { constructor; [split; vm_compute; reflexivity | constructor]. }
  assert (H2 : Forall stored_form (interleaved env_later)) by constructor.
  exact (conj H1 (conj H2 (send_keeps_stored_form (L := laws) env_later carl
                             world_with_ann H1 H2))).
Defined.

Lemma enrolled_keys_are_taken_witness :
  store (snd (send env0 ann world0))
  = store world0 ++ interleaved env0 ++ [ann_doc]
  /\ validateEnrollmentData (t_validate env_later) (sanitize_str <$> ann_again)
     = []
  /\ trim (toLowerCase (toLowerCase (u "Ann@X.com"))) = Student.email ann_doc
  /\ statusCode (fst (send env_later ann_again (snd (send env0 ann world0))))
     = 409.
Proof.
  assert (H1 : store (snd (send env0 ann world0))
               = store world0 ++ interleaved env0 ++ [ann_doc])
    by (vm_compute; reflexivity).
  assert (H2 : validateEnrollmentData (t_validate env_later)
                 (sanitize_str <$> ann_again) = [])
    by (vm_compute; reflexivity).
  assert (H3 : trim (toLowerCase (toLowerCase (u "Ann@X.com")))
               = Student.email ann_doc)
    by (vm_compute; reflexivity).
  destruct (enrolled_keys_are_taken env0 env_later ann ann_again world0 ann_doc
              (u "Ann@X.com") (u "ID55555") H1 H2
              ltac:(vm_compute; reflexivity) ltac:(vm_compute; reflexivity)
              (or_introl H3)) as (A & _).
  exact (conj H1 (conj H2 (conj H3 A))).
Defined.

Lemma limiters_answer_first_witness :
  within_general_limit env_throttled = false
  /\ serve env_throttled (request GET (u "/api/students/65a1b2c3d4e5f60718293a4b") ∅)
           world_with_ann
     = (Reply (too_many
          (u "Too many requests from this IP, please try again later.")),
        world_with_ann)
  /\ within_form_limit env_form_throttled = false
  /\ serve env_form_throttled (request POST (u "/api/route") ann) world0
     = serve env_form_throttled (request POST (u "/send") ann) world0.
Proof.
  destruct (limiters_answer_first env_throttled world_with_ann) as (A & _).
  destruct (limiters_answer_first env_form_throttled world0) as (_ & B).
  destruct (B eq_refl eq_refl ann) as (_ & B').
  exact (conj eq_refl (conj (A eq_refl _) (conj eq_refl B'))).
Defined.

Lemma getLocalIP_first_external_witness :
  Legacy.external_ipv4 lan4 = true
  /\ (exists i, Legacy.external_ipv4 i = true
                /\ Legacy.getLocalIP interfaces = Legacy.address i)
  /\ Legacy.getLocalIP [(u "lo", [loopback])] = u "localhost".
Proof.
  destruct (getLocalIP_first_external [(u "lo", [loopback])]) as (A & _).
  destruct (getLocalIP_first_external interfaces) as (_ & B & _).
  assert (H : Legacy.external_ipv4 lan4 = true) by reflexivity.
  split; [exact H|]. split.
  - destruct B as (before & i & after & Hl & Hb & Hi & Ha).
    { exists lan4. split; [simpl; tauto | exact H]. }
    exists i. split; [exact Hi | exact Ha].
  - apply A. intros i [<-|[]]. reflexivity.
Defined.

Lemma enrolled_student_stays_readable_witness :
  statusCode (getStudent (u "65A1B2C3D4E5F60718293A4B") world_with_ann) = 200
  /\ getStudent (u "65A1B2C3D4E5F60718293A4B")
       (submissions [(env_later, carl); (env_faulty, ann); (env_later, two_missing)]
          world_with_ann)
     = getStudent (u "65A1B2C3D4E5F60718293A4B") world_with_ann.
Proof.
  assert (H : statusCode (getStudent (u "65A1B2C3D4E5F60718293A4B")
                            world_with_ann) = 200)
    by (vm_compute; reflexivity).
  destruct (enrolled_student_stays_readable
              [(env_later, carl); (env_faulty, ann); (env_later, two_missing)]
              world_with_ann) as (_ & A & _).
  exact (conj H (A _ H)).
Defined.

(** The first server accepts a body of blanks and needs both mails. *)
Example first_server_samples :
  statusCode (fst (Legacy.enrollment good_link
                     (<[u "city" := u "  "]> ann))) = 200
  /\ statusCode (fst (Legacy.enrollment good_link two_missing)) = 400
  /\ Legacy.enrollment admin_down ann
     = (Legacy.answer 500 false
          (u "Failed to process enrollment. Please try again."),
        [Legacy.admin_envelope admin_down ann]).
Proof. split; [|split]; vm_compute; reflexivity. Qed.

Example transport_samples :
  createTransporter yahoo_env
  = Unsupported (u "Unsupported email service: yahoo")
  /\ createTransporter sendgrid_env
     = HandedOver (OwnConfig (SmtpConfig (u "smtp.sendgrid.net") 587 false
                                (Some (u "apikey")) (Some (u "SG.key")))).
Proof. split; vm_compute; reflexivity. Qed.

End MoreSamples.
